(** * OneButton: clicks, double clicks and long presses on a single button

    A shallow embedding of [OneButton.cpp].  The object's member variables
    are a record, every member function is a state transformer over that
    record, and the user callbacks a call fires are collected in a trace.
    The two hardware reads of [tick], [digitalRead(_pin)] and [millis()],
    are its two arguments.

    A callback is an opaque user function: the model records that it was
    called and takes it not to call back into the button. *)

From Stdlib Require Import ZArith List Bool Lia.
Import ListNotations.
Local Open Scope Z_scope.

(** ** Platform *)

(** Pin levels of the Arduino core. *)
Definition HIGH : Z := 1.
Definition LOW : Z := 0.

(** [unsigned long] has 32 bits on the Arduino targets; sums wrap around.
    An [int] operand is converted to [unsigned long] first, which is the
    same reduction modulo [2 ^ 32]. *)
Definition ULONG_BITS : Z := 32.
Definition ulong (z : Z) : Z := z mod 2 ^ ULONG_BITS.

Arguments ulong : simpl never.

(** ** The object *)

(** A user function [void f(void)], known by its identity only. *)
Definition handler : Type := nat.

(** [callbackFunction] is a nullable function pointer. *)
Definition callbackFunction : Type := option handler.
Definition NULL : callbackFunction := None.

(** The member variables.  The class is declared in [OneButton.h]; the
    types are those the member functions use: [int] for the pin, the two
    thresholds, the levels and the state, [unsigned long] for the two
    times, which are copies of [millis()]. *)
Record OneButton : Type := mkOneButton {
  _pin : Z;
  _clickTicks : Z;
  _pressTicks : Z;
  _lastActivityTime : Z;
  _state : Z;
  _isLongPressed : bool;
  _buttonReleased : Z;
  _buttonPressed : Z;
  _clickFunc : callbackFunction;
  _doubleClickFunc : callbackFunction;
  _pressFunc : callbackFunction;
  _longPressStartFunc : callbackFunction;
  _longPressStopFunc : callbackFunction;
  _duringLongPressFunc : callbackFunction;
  _startTime : Z
}.

(** Assignment to one member. *)

Definition set_pin (v : Z) (b : OneButton) : OneButton :=
  {| _pin := v; _clickTicks := _clickTicks b; _pressTicks := _pressTicks b;
     _lastActivityTime := _lastActivityTime b; _state := _state b;
     _isLongPressed := _isLongPressed b; _buttonReleased := _buttonReleased b;
     _buttonPressed := _buttonPressed b; _clickFunc := _clickFunc b;
     _doubleClickFunc := _doubleClickFunc b; _pressFunc := _pressFunc b;
     _longPressStartFunc := _longPressStartFunc b;
     _longPressStopFunc := _longPressStopFunc b;
     _duringLongPressFunc := _duringLongPressFunc b;
     _startTime := _startTime b |}.

Definition set_clickTicks (v : Z) (b : OneButton) : OneButton :=
  {| _pin := _pin b; _clickTicks := v; _pressTicks := _pressTicks b;
     _lastActivityTime := _lastActivityTime b; _state := _state b;
     _isLongPressed := _isLongPressed b; _buttonReleased := _buttonReleased b;
     _buttonPressed := _buttonPressed b; _clickFunc := _clickFunc b;
     _doubleClickFunc := _doubleClickFunc b; _pressFunc := _pressFunc b;
     _longPressStartFunc := _longPressStartFunc b;
     _longPressStopFunc := _longPressStopFunc b;
     _duringLongPressFunc := _duringLongPressFunc b;
     _startTime := _startTime b |}.

Definition set_pressTicks (v : Z) (b : OneButton) : OneButton :=
  {| _pin := _pin b; _clickTicks := _clickTicks b; _pressTicks := v;
     _lastActivityTime := _lastActivityTime b; _state := _state b;
     _isLongPressed := _isLongPressed b; _buttonReleased := _buttonReleased b;
     _buttonPressed := _buttonPressed b; _clickFunc := _clickFunc b;
     _doubleClickFunc := _doubleClickFunc b; _pressFunc := _pressFunc b;
     _longPressStartFunc := _longPressStartFunc b;
     _longPressStopFunc := _longPressStopFunc b;
     _duringLongPressFunc := _duringLongPressFunc b;
     _startTime := _startTime b |}.

Definition set_lastActivityTime (v : Z) (b : OneButton) : OneButton :=
  {| _pin := _pin b; _clickTicks := _clickTicks b;
     _pressTicks := _pressTicks b; _lastActivityTime := v; _state := _state b;
     _isLongPressed := _isLongPressed b; _buttonReleased := _buttonReleased b;
     _buttonPressed := _buttonPressed b; _clickFunc := _clickFunc b;
     _doubleClickFunc := _doubleClickFunc b; _pressFunc := _pressFunc b;
     _longPressStartFunc := _longPressStartFunc b;
     _longPressStopFunc := _longPressStopFunc b;
     _duringLongPressFunc := _duringLongPressFunc b;
     _startTime := _startTime b |}.

Definition set_state (v : Z) (b : OneButton) : OneButton :=
  {| _pin := _pin b; _clickTicks := _clickTicks b;
     _pressTicks := _pressTicks b; _lastActivityTime := _lastActivityTime b;
     _state := v; _isLongPressed := _isLongPressed b;
     _buttonReleased := _buttonReleased b; _buttonPressed := _buttonPressed b;
     _clickFunc := _clickFunc b; _doubleClickFunc := _doubleClickFunc b;
     _pressFunc := _pressFunc b; _longPressStartFunc := _longPressStartFunc b;
     _longPressStopFunc := _longPressStopFunc b;
     _duringLongPressFunc := _duringLongPressFunc b;
     _startTime := _startTime b |}.

Definition set_isLongPressed (v : bool) (b : OneButton) : OneButton :=
  {| _pin := _pin b; _clickTicks := _clickTicks b;
     _pressTicks := _pressTicks b; _lastActivityTime := _lastActivityTime b;
     _state := _state b; _isLongPressed := v;
     _buttonReleased := _buttonReleased b; _buttonPressed := _buttonPressed b;
     _clickFunc := _clickFunc b; _doubleClickFunc := _doubleClickFunc b;
     _pressFunc := _pressFunc b; _longPressStartFunc := _longPressStartFunc b;
     _longPressStopFunc := _longPressStopFunc b;
     _duringLongPressFunc := _duringLongPressFunc b;
     _startTime := _startTime b |}.

Definition set_buttonReleased (v : Z) (b : OneButton) : OneButton :=
  {| _pin := _pin b; _clickTicks := _clickTicks b;
     _pressTicks := _pressTicks b; _lastActivityTime := _lastActivityTime b;
     _state := _state b; _isLongPressed := _isLongPressed b;
     _buttonReleased := v; _buttonPressed := _buttonPressed b;
     _clickFunc := _clickFunc b; _doubleClickFunc := _doubleClickFunc b;
     _pressFunc := _pressFunc b; _longPressStartFunc := _longPressStartFunc b;
     _longPressStopFunc := _longPressStopFunc b;
     _duringLongPressFunc := _duringLongPressFunc b;
     _startTime := _startTime b |}.

Definition set_buttonPressed (v : Z) (b : OneButton) : OneButton :=
  {| _pin := _pin b; _clickTicks := _clickTicks b;
     _pressTicks := _pressTicks b; _lastActivityTime := _lastActivityTime b;
     _state := _state b; _isLongPressed := _isLongPressed b;
     _buttonReleased := _buttonReleased b; _buttonPressed := v;
     _clickFunc := _clickFunc b; _doubleClickFunc := _doubleClickFunc b;
     _pressFunc := _pressFunc b; _longPressStartFunc := _longPressStartFunc b;
     _longPressStopFunc := _longPressStopFunc b;
     _duringLongPressFunc := _duringLongPressFunc b;
     _startTime := _startTime b |}.

Definition set_clickFunc (v : callbackFunction) (b : OneButton) : OneButton :=
  {| _pin := _pin b; _clickTicks := _clickTicks b;
     _pressTicks := _pressTicks b; _lastActivityTime := _lastActivityTime b;
     _state := _state b; _isLongPressed := _isLongPressed b;
     _buttonReleased := _buttonReleased b; _buttonPressed := _buttonPressed b;
     _clickFunc := v; _doubleClickFunc := _doubleClickFunc b;
     _pressFunc := _pressFunc b; _longPressStartFunc := _longPressStartFunc b;
     _longPressStopFunc := _longPressStopFunc b;
     _duringLongPressFunc := _duringLongPressFunc b;
     _startTime := _startTime b |}.

Definition set_doubleClickFunc (v : callbackFunction) (b : OneButton) : OneButton :=
  {| _pin := _pin b; _clickTicks := _clickTicks b;
     _pressTicks := _pressTicks b; _lastActivityTime := _lastActivityTime b;
     _state := _state b; _isLongPressed := _isLongPressed b;
     _buttonReleased := _buttonReleased b; _buttonPressed := _buttonPressed b;
     _clickFunc := _clickFunc b; _doubleClickFunc := v;
     _pressFunc := _pressFunc b; _longPressStartFunc := _longPressStartFunc b;
     _longPressStopFunc := _longPressStopFunc b;
     _duringLongPressFunc := _duringLongPressFunc b;
     _startTime := _startTime b |}.

Definition set_pressFunc (v : callbackFunction) (b : OneButton) : OneButton :=
  {| _pin := _pin b; _clickTicks := _clickTicks b;
     _pressTicks := _pressTicks b; _lastActivityTime := _lastActivityTime b;
     _state := _state b; _isLongPressed := _isLongPressed b;
     _buttonReleased := _buttonReleased b; _buttonPressed := _buttonPressed b;
     _clickFunc := _clickFunc b; _doubleClickFunc := _doubleClickFunc b;
     _pressFunc := v; _longPressStartFunc := _longPressStartFunc b;
     _longPressStopFunc := _longPressStopFunc b;
     _duringLongPressFunc := _duringLongPressFunc b;
     _startTime := _startTime b |}.

Definition set_longPressStartFunc (v : callbackFunction) (b : OneButton) : OneButton :=
  {| _pin := _pin b; _clickTicks := _clickTicks b;
     _pressTicks := _pressTicks b; _lastActivityTime := _lastActivityTime b;
     _state := _state b; _isLongPressed := _isLongPressed b;
     _buttonReleased := _buttonReleased b; _buttonPressed := _buttonPressed b;
     _clickFunc := _clickFunc b; _doubleClickFunc := _doubleClickFunc b;
     _pressFunc := _pressFunc b; _longPressStartFunc := v;
     _longPressStopFunc := _longPressStopFunc b;
     _duringLongPressFunc := _duringLongPressFunc b;
     _startTime := _startTime b |}.

Definition set_longPressStopFunc (v : callbackFunction) (b : OneButton) : OneButton :=
  {| _pin := _pin b; _clickTicks := _clickTicks b;
     _pressTicks := _pressTicks b; _lastActivityTime := _lastActivityTime b;
     _state := _state b; _isLongPressed := _isLongPressed b;
     _buttonReleased := _buttonReleased b; _buttonPressed := _buttonPressed b;
     _clickFunc := _clickFunc b; _doubleClickFunc := _doubleClickFunc b;
     _pressFunc := _pressFunc b; _longPressStartFunc := _longPressStartFunc b;
     _longPressStopFunc := v; _duringLongPressFunc := _duringLongPressFunc b;
     _startTime := _startTime b |}.

Definition set_duringLongPressFunc (v : callbackFunction) (b : OneButton) : OneButton :=
  {| _pin := _pin b; _clickTicks := _clickTicks b;
     _pressTicks := _pressTicks b; _lastActivityTime := _lastActivityTime b;
     _state := _state b; _isLongPressed := _isLongPressed b;
     _buttonReleased := _buttonReleased b; _buttonPressed := _buttonPressed b;
     _clickFunc := _clickFunc b; _doubleClickFunc := _doubleClickFunc b;
     _pressFunc := _pressFunc b; _longPressStartFunc := _longPressStartFunc b;
     _longPressStopFunc := _longPressStopFunc b; _duringLongPressFunc := v;
     _startTime := _startTime b |}.

Definition set_startTime (v : Z) (b : OneButton) : OneButton :=
  {| _pin := _pin b; _clickTicks := _clickTicks b;
     _pressTicks := _pressTicks b; _lastActivityTime := _lastActivityTime b;
     _state := _state b; _isLongPressed := _isLongPressed b;
     _buttonReleased := _buttonReleased b; _buttonPressed := _buttonPressed b;
     _clickFunc := _clickFunc b; _doubleClickFunc := _doubleClickFunc b;
     _pressFunc := _pressFunc b; _longPressStartFunc := _longPressStartFunc b;
     _longPressStopFunc := _longPressStopFunc b;
     _duringLongPressFunc := _duringLongPressFunc b; _startTime := v |}.

(** ** Member functions as state transformers

    A member function maps the object to its return value, the object
    afterwards and the callbacks it invoked, oldest first. *)

Definition Method (A : Type) : Type :=
  OneButton -> A * OneButton * list handler.

Definition ret {A : Type} (a : A) : Method A :=
  fun b => (a, b, []).

Definition bind {A B : Type} (m : Method A) (k : A -> Method B) : Method B :=
  fun b =>
    let '(a, b1, l1) := m b in
    let '(r, b2, l2) := k a b1 in
    (r, b2, l1 ++ l2).

Notation "x <- m ;; k" := (bind m (fun x => k))
  (at level 61, m at next level, right associativity).
Notation "m ;; k" := (bind m (fun _ => k))
  (at level 61, right associativity).

(** The object as it is now. *)
Definition this : Method OneButton :=
  fun b => (b, b, []).

Definition assign (f : OneButton -> OneButton) : Method unit :=
  fun b => (tt, f b, []).

(** [if (f) f();] on a member [f]. *)
Definition fired (f : callbackFunction) : list handler :=
  match f with
  | Some h => [h]
  | None => []
  end.

Definition call_if_set (member : OneButton -> callbackFunction) : Method unit :=
  fun b => (tt, b, fired (member b)).

Definition value {A : Type} (x : A * OneButton * list handler) : A :=
  fst (fst x).
Definition object {A : Type} (x : A * OneButton * list handler) : OneButton :=
  snd (fst x).
Definition invoked {A : Type} (x : A * OneButton * list handler) : list handler :=
  snd x.

(** ** Initialization and default values

    The constructor runs on the storage of the new object, [raw] below,
    and assigns the members it names; [pinMode] and [digitalWrite] act on
    the pin only. *)

Definition OneButton_ctor (pin activeLow : Z) : Method unit :=
  assign (set_pin pin) ;;
  assign (set_clickTicks 250) ;;
  assign (set_pressTicks 600) ;;
  assign (set_lastActivityTime 0) ;;
  assign (set_state 0) ;;
  assign (set_isLongPressed false) ;;
  (if negb (activeLow =? 0) then
     assign (set_buttonReleased HIGH) ;;
     assign (set_buttonPressed LOW)
   else
     assign (set_buttonReleased LOW) ;;
     assign (set_buttonPressed HIGH)) ;;
  assign (set_doubleClickFunc NULL) ;;
  assign (set_pressFunc NULL) ;;
  assign (set_longPressStartFunc NULL) ;;
  assign (set_longPressStopFunc NULL) ;;
  assign (set_duringLongPressFunc NULL).

(** The object the constructor leaves in storage [raw]. *)
Definition construct (raw : OneButton) (pin activeLow : Z) : OneButton :=
  object (OneButton_ctor pin activeLow raw).

Definition setClickTicks (ticks : Z) : Method unit :=
  assign (set_clickTicks ticks).

Definition setPressTicks (ticks : Z) : Method unit :=
  assign (set_pressTicks ticks).

Definition getLastActivityTime : Method Z :=
  b <- this ;; ret (_lastActivityTime b).

Definition attachClick (newFunction : callbackFunction) : Method unit :=
  assign (set_clickFunc newFunction).

Definition attachDoubleClick (newFunction : callbackFunction) : Method unit :=
  assign (set_doubleClickFunc newFunction).

Definition attachPress (newFunction : callbackFunction) : Method unit :=
  assign (set_pressFunc newFunction).

Definition attachLongPressStart (newFunction : callbackFunction) : Method unit :=
  assign (set_longPressStartFunc newFunction).

Definition attachLongPressStop (newFunction : callbackFunction) : Method unit :=
  assign (set_longPressStopFunc newFunction).

Definition attachDuringLongPress (newFunction : callbackFunction) : Method unit :=
  assign (set_duringLongPressFunc newFunction).

Definition isLongPressed : Method bool :=
  b <- this ;; ret (_isLongPressed b).

(** [buttonLevel] is what [digitalRead(_pin)] returns. *)
Definition isPressed (buttonLevel : Z) : Method bool :=
  b <- this ;; ret (buttonLevel =? _buttonPressed b).

Definition isReleased (buttonLevel : Z) : Method bool :=
  b <- this ;; ret (buttonLevel =? _buttonReleased b).

(** ** The calls a sketch makes on one button *)

(** The configuration calls: the two threshold setters and the six
    callback registrations. *)
Inductive Config : Type :=
| SetClickTicks (ticks : Z)
| SetPressTicks (ticks : Z)
| AttachClick (newFunction : callbackFunction)
| AttachDoubleClick (newFunction : callbackFunction)
| AttachPress (newFunction : callbackFunction)
| AttachLongPressStart (newFunction : callbackFunction)
| AttachLongPressStop (newFunction : callbackFunction)
| AttachDuringLongPress (newFunction : callbackFunction).

Definition configure (c : Config) : Method unit :=
  match c with
  | SetClickTicks ticks => setClickTicks ticks
  | SetPressTicks ticks => setPressTicks ticks
  | AttachClick f => attachClick f
  | AttachDoubleClick f => attachDoubleClick f
  | AttachPress f => attachPress f
  | AttachLongPressStart f => attachLongPressStart f
  | AttachLongPressStop f => attachLongPressStop f
  | AttachDuringLongPress f => attachDuringLongPress f
  end.

Inductive Call : Type :=
| Poll (buttonLevel now : Z)
| Setup (c : Config).

(** ** Vocabulary of the state machine *)

Inductive State : Type :=
| Idle
| PressDetected
| WaitSecondPress
| WaitSecondRelease
| LongPressActive.

(** The number [_state] holds for each state. *)
Definition state_code (s : State) : Z :=
  match s with
  | Idle => 0
  | PressDetected => 1
  | WaitSecondPress => 2
  | WaitSecondRelease => 3
  | LongPressActive => 6
  end.

(** The sample is [pressed] / [released] for this object's wiring. *)
Definition pressed (b : OneButton) (buttonLevel : Z) : Prop :=
  buttonLevel = _buttonPressed b.

Definition released (b : OneButton) (buttonLevel : Z) : Prop :=
  buttonLevel = _buttonReleased b.

(** The two levels of the wiring differ, as the constructor sets them. *)
Definition wired (b : OneButton) : Prop :=
  _buttonPressed b <> _buttonReleased b.

(** [_lastActivityTime] after a tick at [now] that returned [e]. *)
Definition stamp (e now : Z) (b : OneButton) : OneButton :=
  if negb (e =? 0) then set_lastActivityTime now b else b.

(** Storage with every byte zero, as static storage is before the
    constructor runs. *)
Definition zeroed : OneButton :=
  {| _pin := 0; _clickTicks := 0; _pressTicks := 0; _lastActivityTime := 0;
     _state := 0; _isLongPressed := false; _buttonReleased := 0;
     _buttonPressed := 0; _clickFunc := NULL; _doubleClickFunc := NULL;
     _pressFunc := NULL; _longPressStartFunc := NULL;
     _longPressStopFunc := NULL; _duringLongPressFunc := NULL;
     _startTime := 0 |}.

(** Storage that held other data before: the bytes of [_clickFunc] are
    those of some function [h]. *)
Definition stale (h : handler) : OneButton :=
  set_clickFunc (Some h) zeroed.

(** A button as a sketch sets it up: active low on pin 2, constructed in
    static storage, a function registered for each of the six events. *)
Definition sketch_setup : list Config :=
  [AttachClick (Some 1%nat); AttachDoubleClick (Some 2%nat);
   AttachPress (Some 3%nat); AttachLongPressStart (Some 4%nat);
   AttachLongPressStop (Some 5%nat); AttachDuringLongPress (Some 6%nat)].

Definition sketch_button : OneButton :=
  fold_left (fun b c => object (configure c b)) sketch_setup
    (construct zeroed 2 1).

(** The same button caught in state [s] with start time [t0]. *)
Definition sketch_in (s : State) (t0 : Z) : OneButton :=
  set_startTime t0 (set_state (state_code s) sketch_button).

(** ** Vocabulary of the event stream *)

(** What the events returned so far say about the button: nothing is
    going on, a press is being classified, a long press is being held. *)
Inductive Phase : Type :=
| Resting
| Classifying
| Holding.

Definition phase (s : State) : Phase :=
  match s with
  | Idle => Resting
  | PressDetected | WaitSecondPress | WaitSecondRelease => Classifying
  | LongPressActive => Holding
  end.

(** Two objects that differ at most in a [_startTime] nobody reads: they
    agree on every other member, and on [_startTime] too unless both are
    in state 0, where [tick] overwrites it before it reads it. *)
Definition agree (b1 b2 : OneButton) : Prop :=
  set_startTime 0 b1 = set_startTime 0 b2
  /\ (_state b1 <> 0 -> _startTime b1 = _startTime b2).

(** The member a configuration call assigns, counted from 0. *)
Definition target (c : Config) : nat :=
  match c with
  | SetClickTicks _ => 0
  | SetPressTicks _ => 1
  | AttachClick _ => 2
  | AttachDoubleClick _ => 3
  | AttachPress _ => 4
  | AttachLongPressStart _ => 5
  | AttachLongPressStop _ => 6
  | AttachDuringLongPress _ => 7
  end.

(** ** The state machine *)

Section Machine.

(** The event codes [tick] returns.  They are macros of [OneButton.h]
    and stand for any six integers here. *)
Variables PRESSED_STATE CLICK_STATE DOUBLE_CLICK_STATE : Z.
Variables LONG_PRESS_START_STATE DURING_LONG_PRESS_STATE : Z.
Variable LONG_PRESS_STOP_STATE : Z.

(** [buttonLevel] is [digitalRead(_pin)], [now] is [millis()]. *)
Definition tick (buttonLevel now : Z) : Method Z :=
  b <- this ;;
  finalState <-
    (if _state b =? 0 then
       if buttonLevel =? _buttonPressed b then
         assign (set_state 1) ;;
         assign (set_startTime now) ;;
         ret PRESSED_STATE
       else ret 0
     else if _state b =? 1 then
       if buttonLevel =? _buttonReleased b then
         assign (set_state 2) ;;
         ret 0
       else if (buttonLevel =? _buttonPressed b)
               && (now >? ulong (_startTime b + _pressTicks b)) then
         assign (set_isLongPressed true) ;;
         call_if_set _pressFunc ;;
         call_if_set _longPressStartFunc ;;
         call_if_set _duringLongPressFunc ;;
         assign (set_state 6) ;;
         ret LONG_PRESS_START_STATE
       else ret 0
     else if _state b =? 2 then
       if now >? ulong (_startTime b + _clickTicks b) then
         call_if_set _clickFunc ;;
         assign (set_state 0) ;;
         ret CLICK_STATE
       else if buttonLevel =? _buttonPressed b then
         assign (set_state 3) ;;
         ret 0
       else ret 0
     else if _state b =? 3 then
       if buttonLevel =? _buttonReleased b then
         call_if_set _doubleClickFunc ;;
         assign (set_state 0) ;;
         ret DOUBLE_CLICK_STATE
       else ret 0
     else if _state b =? 6 then
       if buttonLevel =? _buttonReleased b then
         assign (set_isLongPressed false) ;;
         call_if_set _longPressStopFunc ;;
         assign (set_state 0) ;;
         ret LONG_PRESS_STOP_STATE
       else
         assign (set_isLongPressed true) ;;
         call_if_set _duringLongPressFunc ;;
         ret DURING_LONG_PRESS_STATE
     else ret 0) ;;
  (if negb (finalState =? 0) then assign (set_lastActivityTime now)
   else ret tt) ;;
  ret finalState.

(** One [tick] per sample [(buttonLevel, now)], in order; the events
    returned are collected. *)
Fixpoint ticks (samples : list (Z * Z)) : Method (list Z) :=
  match samples with
  | [] => ret []
  | (buttonLevel, now) :: rest =>
      e <- tick buttonLevel now ;;
      es <- ticks rest ;;
      ret (e :: es)
  end.

(** The six event codes, and what makes them usable as events: none is
    the [0] that [tick] returns for no event, and no two coincide. *)
Definition event_codes : list Z :=
  [PRESSED_STATE; CLICK_STATE; DOUBLE_CLICK_STATE;
   LONG_PRESS_START_STATE; DURING_LONG_PRESS_STATE; LONG_PRESS_STOP_STATE].

Definition codes_nonzero : Prop := Forall (fun c => c <> 0) event_codes.

Definition codes_distinct : Prop := NoDup (0 :: event_codes).

Definition perform (c : Call) (b : OneButton) : OneButton :=
  match c with
  | Poll buttonLevel now =>
      object (tick buttonLevel now b)
  | Setup c => object (configure c b)
  end.

(** The object after a list of calls, first call first. *)
Definition session (calls : list Call) (b : OneButton) : OneButton :=
  fold_left (fun b c => perform c b) calls b.

(** ** Invariants *)

(** [_state] holds the number of one of the five states. *)
Definition valid_state (b : OneButton) : Prop :=
  exists s : State, _state b = state_code s.

(** The long-press flag mirrors the state. *)
Definition flag_mirrors_state (b : OneButton) : Prop :=
  _isLongPressed b = true <-> _state b = state_code LongPressActive.

(** ** The event stream *)

(** The phase after event [e] in phase [p]; [None] when [e] cannot follow.
    [0] is no event and changes nothing. *)
Definition next_phase (p : Phase) (e : Z) : option Phase :=
  if e =? 0 then Some p
  else
    match p with
    | Resting =>
        if e =? PRESSED_STATE then Some Classifying else None
    | Classifying =>
        if e =? CLICK_STATE then Some Resting
        else if e =? DOUBLE_CLICK_STATE then Some Resting
        else if e =? LONG_PRESS_START_STATE then Some Holding
        else None
    | Holding =>
        if e =? DURING_LONG_PRESS_STATE then Some Holding
        else if e =? LONG_PRESS_STOP_STATE then Some Resting
        else None
    end.

(** The phase a list of events leads to from [p], if each may follow. *)
Fixpoint phase_after (p : Phase) (events : list Z) : option Phase :=
  match events with
  | [] => Some p
  | e :: rest =>
      match next_phase p e with
      | Some p' => phase_after p' rest
      | None => None
      end
  end.

(** The functions a tick that returns event [e] invokes on object [b]. *)
Definition callbacks_for (b : OneButton) (e : Z) : list handler :=
  if e =? 0 then []
  else if e =? PRESSED_STATE then []
  else if e =? CLICK_STATE then fired (_clickFunc b)
  else if e =? DOUBLE_CLICK_STATE then fired (_doubleClickFunc b)
  else if e =? LONG_PRESS_START_STATE then
    fired (_pressFunc b) ++ fired (_longPressStartFunc b)
      ++ fired (_duringLongPressFunc b)
  else if e =? DURING_LONG_PRESS_STATE then fired (_duringLongPressFunc b)
  else if e =? LONG_PRESS_STOP_STATE then fired (_longPressStopFunc b)
  else [].

(** ** Proof automation for [tick] *)

Ltac unfold_tick :=
  unfold tick, bind, this, assign, call_if_set, ret, stamp,
    pressed, released, wired in *.

Ltac case_conds :=
  repeat match goal with
  | |- context [?x =? ?y] =>
      destruct (Z.eqb_spec x y); try (exfalso; congruence || lia); cbn
  | |- context [?x >? ?y] =>
      destruct (Z.gtb_spec x y); try (exfalso; lia); cbn
  end.

Ltac row Hs :=
  unfold_tick; rewrite Hs; cbn; case_conds;
  rewrite ?app_nil_r; try reflexivity.

(** * Properties *)

(** ** Arithmetic of the deadlines *)

Lemma ulong_range (z : Z) : 0 <= ulong z < 2 ^ ULONG_BITS.
Proof. unfold ulong. apply Z.mod_pos_bound. reflexivity. Qed.

Lemma ulong_small (z : Z) : 0 <= z < 2 ^ ULONG_BITS -> ulong z = z.
Proof. intros H. unfold ulong. apply Z.mod_small. exact H. Qed.

(** ** The constructor *)

Lemma construct_eq (raw : OneButton) (pin activeLow : Z) :
  construct raw pin activeLow =
  {| _pin := pin; _clickTicks := 250; _pressTicks := 600;
     _lastActivityTime := 0; _state := 0; _isLongPressed := false;
     _buttonReleased := if negb (activeLow =? 0) then HIGH else LOW;
     _buttonPressed := if negb (activeLow =? 0) then LOW else HIGH;
     _clickFunc := _clickFunc raw; _doubleClickFunc := NULL;
     _pressFunc := NULL; _longPressStartFunc := NULL;
     _longPressStopFunc := NULL; _duringLongPressFunc := NULL;
     _startTime := _startTime raw |}.
Proof.
  unfold construct, OneButton_ctor.
  destruct (activeLow =? 0); reflexivity.
Qed.

Lemma construct_wired (raw : OneButton) (pin activeLow : Z) :
  wired (construct raw pin activeLow).
Proof.
  rewrite construct_eq. unfold wired, HIGH, LOW. simpl.
  destruct (activeLow =? 0); simpl; lia.
Qed.

(** ** The transition table, row by row *)

Lemma row_idle_pressed (b : OneButton) (buttonLevel now : Z) :
  _state b = 0 -> pressed b buttonLevel ->
  tick buttonLevel now b =
  (PRESSED_STATE,
   stamp PRESSED_STATE now (set_startTime now (set_state 1 b)), []).
Proof. intros Hs Hl. row Hs. Qed.

Lemma row_idle_released (b : OneButton) (buttonLevel now : Z) :
  _state b = 0 -> ~ pressed b buttonLevel ->
  tick buttonLevel now b = (0, b, []).
Proof. intros Hs Hl. row Hs. Qed.

Lemma row_press_released (b : OneButton) (buttonLevel now : Z) :
  _state b = 1 -> released b buttonLevel ->
  tick buttonLevel now b = (0, set_state 2 b, []).
Proof. intros Hs Hl. row Hs. Qed.

Lemma row_press_long (b : OneButton) (buttonLevel now : Z) :
  _state b = 1 -> wired b -> pressed b buttonLevel ->
  now > ulong (_startTime b + _pressTicks b) ->
  tick buttonLevel now b =
  (LONG_PRESS_START_STATE,
   stamp LONG_PRESS_START_STATE now (set_state 6 (set_isLongPressed true b)),
   fired (_pressFunc b) ++ fired (_longPressStartFunc b)
     ++ fired (_duringLongPressFunc b)).
Proof. intros Hs Hw Hl Ht. row Hs. Qed.

Lemma row_press_held (b : OneButton) (buttonLevel now : Z) :
  _state b = 1 -> ~ released b buttonLevel ->
  now <= ulong (_startTime b + _pressTicks b) ->
  tick buttonLevel now b = (0, b, []).
Proof. intros Hs Hl Ht. row Hs. Qed.

Lemma row_wait_timeout (b : OneButton) (buttonLevel now : Z) :
  _state b = 2 -> now > ulong (_startTime b + _clickTicks b) ->
  tick buttonLevel now b =
  (CLICK_STATE, stamp CLICK_STATE now (set_state 0 b), fired (_clickFunc b)).
Proof. intros Hs Ht. row Hs. Qed.

Lemma row_wait_pressed (b : OneButton) (buttonLevel now : Z) :
  _state b = 2 -> now <= ulong (_startTime b + _clickTicks b) ->
  pressed b buttonLevel ->
  tick buttonLevel now b = (0, set_state 3 b, []).
Proof. intros Hs Ht Hl. row Hs. Qed.

Lemma row_wait_released (b : OneButton) (buttonLevel now : Z) :
  _state b = 2 -> now <= ulong (_startTime b + _clickTicks b) ->
  ~ pressed b buttonLevel ->
  tick buttonLevel now b = (0, b, []).
Proof. intros Hs Ht Hl. row Hs. Qed.

Lemma row_second_released (b : OneButton) (buttonLevel now : Z) :
  _state b = 3 -> released b buttonLevel ->
  tick buttonLevel now b =
  (DOUBLE_CLICK_STATE, stamp DOUBLE_CLICK_STATE now (set_state 0 b),
   fired (_doubleClickFunc b)).
Proof. intros Hs Hl. row Hs. Qed.

Lemma row_second_held (b : OneButton) (buttonLevel now : Z) :
  _state b = 3 -> ~ released b buttonLevel ->
  tick buttonLevel now b = (0, b, []).
Proof. intros Hs Hl. row Hs. Qed.

Lemma row_long_released (b : OneButton) (buttonLevel now : Z) :
  _state b = 6 -> released b buttonLevel ->
  tick buttonLevel now b =
  (LONG_PRESS_STOP_STATE,
   stamp LONG_PRESS_STOP_STATE now (set_state 0 (set_isLongPressed false b)),
   fired (_longPressStopFunc b)).
Proof. intros Hs Hl. row Hs. Qed.

Lemma row_long_held (b : OneButton) (buttonLevel now : Z) :
  _state b = 6 -> ~ released b buttonLevel ->
  tick buttonLevel now b =
  (DURING_LONG_PRESS_STATE,
   stamp DURING_LONG_PRESS_STATE now (set_isLongPressed true b),
   fired (_duringLongPressFunc b)).
Proof. intros Hs Hl. row Hs. Qed.
(** ** Runs of ticks *)

Lemma bind_run {A B : Type} (m : Method A) (k : A -> Method B) (b : OneButton) :
  bind m k b =
  (value (k (value (m b)) (object (m b))),
   object (k (value (m b)) (object (m b))),
   invoked (m b) ++ invoked (k (value (m b)) (object (m b)))).
Proof.
  unfold bind, value, object, invoked.
  destruct (m b) as [[a b1] l1]. cbn.
  destruct (k a b1) as [[r b2] l2]. reflexivity.
Qed.

Lemma ticks_cons (buttonLevel now : Z) (rest : list (Z * Z)) (b : OneButton) :
  ticks ((buttonLevel, now) :: rest) b =
  (value (tick buttonLevel now b)
     :: value (ticks rest (object (tick buttonLevel now b))),
   object (ticks rest (object (tick buttonLevel now b))),
   invoked (tick buttonLevel now b)
     ++ invoked (ticks rest (object (tick buttonLevel now b)))).
Proof.
  cbn [ticks]. rewrite bind_run. rewrite bind_run.
  unfold ret, value, object, invoked. cbn. rewrite app_nil_r. reflexivity.
Qed.

Lemma ticks_app (pre post : list (Z * Z)) (b : OneButton) :
  ticks (pre ++ post) b =
  (value (ticks pre b) ++ value (ticks post (object (ticks pre b))),
   object (ticks post (object (ticks pre b))),
   invoked (ticks pre b) ++ invoked (ticks post (object (ticks pre b)))).
Proof.
  revert b. induction pre as [|[buttonLevel now] pre IH]; intros b.
  - cbn. destruct (ticks post b) as [[es b'] l]. reflexivity.
  - rewrite <- app_comm_cons. rewrite !ticks_cons. rewrite IH.
    cbn. rewrite app_assoc. reflexivity.
Qed.

(** ** What the configuration calls leave alone *)

Lemma configure_frame (c : Config) (b : OneButton) :
  _state (object (configure c b)) = _state b
  /\ _startTime (object (configure c b)) = _startTime b
  /\ _isLongPressed (object (configure c b)) = _isLongPressed b
  /\ _lastActivityTime (object (configure c b)) = _lastActivityTime b.
Proof. destruct c; repeat split. Qed.

(** ** Preservation of the invariants *)

Lemma stamp_state (e now : Z) (b : OneButton) :
  _state (stamp e now b) = _state b.
Proof. unfold stamp. destruct (negb (e =? 0)); reflexivity. Qed.

Lemma stamp_flag (e now : Z) (b : OneButton) :
  _isLongPressed (stamp e now b) = _isLongPressed b.
Proof. unfold stamp. destruct (negb (e =? 0)); reflexivity. Qed.

Lemma tick_valid_state (b : OneButton) (buttonLevel now : Z) :
  valid_state b -> valid_state (object (tick buttonLevel now b)).
Proof.
  intros [s Hs]. unfold valid_state, object.
  destruct s; cbn in Hs; unfold_tick; rewrite Hs; cbn; case_conds;
    rewrite ?Hs;
    solve [ exists Idle; reflexivity
          | exists PressDetected; reflexivity
          | exists WaitSecondPress; reflexivity
          | exists WaitSecondRelease; reflexivity
          | exists LongPressActive; reflexivity ].
Qed.

Lemma perform_valid_state (c : Call) (b : OneButton) :
  valid_state b -> valid_state (perform c b).
Proof.
  destruct c as [buttonLevel now | c]; cbn [perform].
  - apply tick_valid_state.
  - unfold valid_state. destruct (configure_frame c b) as [-> _]. auto.
Qed.

Lemma session_invariant (P : OneButton -> Prop) :
  (forall c b, P b -> P (perform c b)) ->
  forall calls b, P b -> P (session calls b).
Proof.
  intros Hstep calls. unfold session.
  induction calls as [|c calls IH]; intros b Hb; cbn.
  - exact Hb.
  - apply IH. apply Hstep. exact Hb.
Qed.
Lemma tick_flag_mirrors_state (b : OneButton) (buttonLevel now : Z) :
  flag_mirrors_state b ->
  flag_mirrors_state (object (tick buttonLevel now b)).
Proof.
  unfold flag_mirrors_state, object. cbn [state_code]. intros Hb.
  unfold_tick. cbn. case_conds;
    repeat match goal with H : _state b = _ |- _ => rewrite H in Hb end;
    split; intros Hgoal; try discriminate; try reflexivity;
    try lia; try (apply Hb in Hgoal; lia); try (apply Hb; exact Hgoal).
Qed.

Lemma perform_flag_mirrors_state (c : Call) (b : OneButton) :
  flag_mirrors_state b -> flag_mirrors_state (perform c b).
Proof.
  destruct c as [buttonLevel now | c]; cbn [perform].
  - apply tick_flag_mirrors_state.
  - unfold flag_mirrors_state.
    destruct (configure_frame c b) as (-> & _ & -> & _). auto.
Qed.

(** The wiring is fixed by the constructor: no later call changes the
    two levels. *)
Lemma tick_wiring (b : OneButton) (buttonLevel now : Z) :
  _buttonPressed (object (tick buttonLevel now b)) = _buttonPressed b
  /\ _buttonReleased (object (tick buttonLevel now b)) = _buttonReleased b.
Proof.
  unfold object. unfold_tick. cbn.
  repeat match goal with
  | |- context [if ?c then _ else _] => destruct c; cbn
  end; split; reflexivity.
Qed.

Lemma perform_wired (c : Call) (b : OneButton) :
  wired b -> wired (perform c b).
Proof.
  unfold wired. destruct c as [buttonLevel now | c]; cbn [perform].
  - destruct (tick_wiring b buttonLevel now) as [-> ->]. auto.
  - destruct c; cbn; auto.
Qed.

Lemma session_wired (raw : OneButton) (pin activeLow : Z) (calls : list Call) :
  wired (session calls (construct raw pin activeLow)).
Proof.
  apply (session_invariant wired).
  - apply perform_wired.
  - apply construct_wired.
Qed.

Lemma construct_valid_state (raw : OneButton) (pin activeLow : Z) :
  valid_state (construct raw pin activeLow).
Proof. rewrite construct_eq. exists Idle. reflexivity. Qed.

Lemma construct_flag_mirrors_state (raw : OneButton) (pin activeLow : Z) :
  flag_mirrors_state (construct raw pin activeLow).
Proof.
  rewrite construct_eq. unfold flag_mirrors_state. cbn.
  split; intros H; discriminate.
Qed.
(** The only way into LongPressActive is from PressDetected, and the only
    way out is the release that returns the long-press-stop event. *)
Lemma tick_enters_long_press (b : OneButton) (buttonLevel now : Z) :
  _state b <> 6 -> _state (object (tick buttonLevel now b)) = 6 ->
  _state b = 1
  /\ value (tick buttonLevel now b) = LONG_PRESS_START_STATE.
Proof.
  unfold object, value. intros Hb. unfold_tick. cbn. case_conds;
    intros Hafter; cbn in Hafter; try lia; try congruence; auto.
Qed.

Lemma tick_leaves_long_press (b : OneButton) (buttonLevel now : Z) :
  _state b = 6 -> _state (object (tick buttonLevel now b)) <> 6 ->
  _state (object (tick buttonLevel now b)) = 0
  /\ released b buttonLevel
  /\ value (tick buttonLevel now b) = LONG_PRESS_STOP_STATE.
Proof.
  unfold object, value. intros Hb. unfold_tick. rewrite Hb. cbn. case_conds;
    intros Hafter; cbn in Hafter; try lia; try congruence; auto.
Qed.

(** ** The activity stamp *)

Lemma tick_value_cases (b : OneButton) (buttonLevel now : Z) :
  value (tick buttonLevel now b) = 0
  \/ In (value (tick buttonLevel now b)) event_codes.
Proof.
  unfold value, event_codes. unfold_tick. cbn -[In].
  repeat match goal with
  | |- context [if ?c then _ else _] => destruct c; cbn -[In]
  end; cbn; tauto.
Qed.

Lemma tick_last_activity (b : OneButton) (buttonLevel now : Z) :
  _lastActivityTime (object (tick buttonLevel now b)) =
  if negb (value (tick buttonLevel now b) =? 0) then now
  else _lastActivityTime b.
Proof.
  unfold value, object. unfold_tick. cbn.
  repeat match goal with
  | |- context [if ?c then _ else _] => destruct c eqn:?; cbn
  end; try reflexivity; try discriminate.
Qed.

Lemma ticks_quiet (samples : list (Z * Z)) (b : OneButton) :
  Forall (fun e => e = 0) (value (ticks samples b)) ->
  _lastActivityTime (object (ticks samples b)) = _lastActivityTime b.
Proof.
  revert b. induction samples as [|[buttonLevel now] rest IH]; intros b.
  - reflexivity.
  - rewrite ticks_cons. cbn [value object fst snd]. intros Hq.
    inversion Hq as [|e es He Hes]; subst.
    rewrite IH by exact Hes.
    rewrite tick_last_activity, He. reflexivity.
Qed.

(** ** Holding the second press *)

Lemma ticks_second_held (times : list Z) (b : OneButton) (buttonLevel : Z) :
  _state b = 3 -> ~ released b buttonLevel ->
  ticks (map (fun t => (buttonLevel, t)) times) b =
  (map (fun _ => 0) times, b, []).
Proof.
  intros Hs Hl. induction times as [|t times IH].
  - reflexivity.
  - cbn [map]. rewrite ticks_cons.
    rewrite (row_second_held b buttonLevel t Hs Hl).
    cbn [value object invoked fst snd]. rewrite IH. reflexivity.
Qed.

Lemma count_occ_no_event (times : list Z) (e : Z) :
  e <> 0 -> count_occ Z.eq_dec (map (fun _ : Z => 0) times) e = 0%nat.
Proof.
  intros He. induction times as [|t times IH].
  - reflexivity.
  - cbn [map]. rewrite count_occ_cons_neq by congruence. exact IH.
Qed.

(** ** Telling the click event from the others *)

Lemma codes_distinct_click :
  codes_distinct ->
  CLICK_STATE <> 0
  /\ CLICK_STATE <> PRESSED_STATE
  /\ CLICK_STATE <> DOUBLE_CLICK_STATE.
Proof.
  unfold codes_distinct, event_codes. intros H.
  rewrite !NoDup_cons_iff in H. cbn in H. intuition congruence.
Qed.

(** * The claims *)

(** C1 (amended).  The release that takes PressDetected to WaitSecondPress
    leaves [_startTime] as it is.  After a press sampled at [t0] in Idle
    and a release sampled at [t1], [_startTime] is [t0], whatever [t1]
    is; the next tick at [t2] declares the click when [t2] is past
    [t0 + _clickTicks], and takes a pressed sample as the second press
    when [t2] is not past [t0 + _clickTicks]: both are measured from the
    start of the press. *)
Theorem C1_click_window_runs_from_press_start :
  forall (b : OneButton) (level0 t0 level1 t1 level2 t2 : Z),
    _state b = state_code Idle ->
    pressed b level0 ->
    released b level1 ->
    let b2 := object (ticks [(level0, t0); (level1, t1)] b) in
    _state b2 = state_code WaitSecondPress
    /\ _startTime b2 = t0
    /\ (t2 > ulong (t0 + _clickTicks b) ->
        value (tick level2 t2 b2) = CLICK_STATE
        /\ invoked (tick level2 t2 b2) = fired (_clickFunc b)
        /\ _state (object (tick level2 t2 b2)) = state_code Idle)
    /\ (t2 <= ulong (t0 + _clickTicks b) ->
        pressed b level2 ->
        value (tick level2 t2 b2) = 0
        /\ invoked (tick level2 t2 b2) = []
        /\ _state (object (tick level2 t2 b2)) = state_code WaitSecondRelease).
Proof.
  intros b level0 t0 level1 t1 level2 t2 Hs H0 H1 b2. cbn [state_code] in *.
  assert (Hb2 : b2 = set_state 2
                  (stamp PRESSED_STATE t0 (set_startTime t0 (set_state 1 b)))).
  { unfold b2. rewrite !ticks_cons. cbn [ticks].
    rewrite (row_idle_pressed b level0 t0 Hs H0).
    cbn [value object invoked fst snd ret].
    rewrite row_press_released; [reflexivity | |].
    - rewrite stamp_state. reflexivity.
    - unfold released, stamp in *.
      destruct (negb (PRESSED_STATE =? 0)); exact H1. }
  assert (Hfields : _state b2 = 2 /\ _startTime b2 = t0
                    /\ _clickTicks b2 = _clickTicks b
                    /\ _clickFunc b2 = _clickFunc b
                    /\ _buttonPressed b2 = _buttonPressed b).
  { rewrite Hb2. unfold stamp.
    destruct (negb (PRESSED_STATE =? 0)); repeat split. }
  destruct Hfields as (Hs2 & Ht0 & Hct & Hcf & Hbp).
  split; [exact Hs2 | split; [exact Ht0 | split]].
  - intros Hlate. rewrite row_wait_timeout by (rewrite ?Ht0, ?Hct; auto).
    cbn [value object invoked fst snd]. rewrite stamp_state, Hcf.
    repeat split.
  - intros Hearly Hl2.
    rewrite row_wait_pressed
      by (rewrite ?Ht0, ?Hct; unfold pressed in *; auto; congruence).
    repeat split.
Qed.

(** C2 (amended).  In WaitSecondPress the timeout is tested before the
    level, and the test is strict.  With a pressed sample: when [now] is
    exactly [_startTime + _clickTicks] the timeout has not passed and the
    press is taken as the second press (no event, nothing invoked,
    WaitSecondRelease); when [now] is later the tick declares the click
    (click event, click function invoked if registered, Idle) and the
    press is not looked at. *)
Theorem C2_tie_captures_second_press :
  forall (b : OneButton) (buttonLevel now : Z),
    _state b = state_code WaitSecondPress ->
    pressed b buttonLevel ->
    let r := tick buttonLevel now b in
    (now = ulong (_startTime b + _clickTicks b) ->
     value r = 0
     /\ invoked r = []
     /\ _state (object r) = state_code WaitSecondRelease)
    /\ (now > ulong (_startTime b + _clickTicks b) ->
        value r = CLICK_STATE
        /\ invoked r = fired (_clickFunc b)
        /\ _state (object r) = state_code Idle).
Proof.
  intros b buttonLevel now Hs Hl r. cbn [state_code] in *. split.
  - intros Htie. unfold r.
    rewrite row_wait_pressed by (auto; lia). repeat split.
  - intros Hlate. unfold r.
    rewrite row_wait_timeout by auto.
    cbn [value object invoked fst snd]. rewrite stamp_state. repeat split.
Qed.

(** C3 (the code at the failing input).  The constructor does not assign
    [_clickFunc]: the member keeps what the storage held.  On the button
    so constructed, with no function registered, a press at 0, a release
    at 50 and a tick at 301 make the timeout of WaitSecondPress invoke
    whatever [_clickFunc] held in the raw storage; the other five members
    are null after the constructor. *)
Theorem C3_click_member_not_initialised :
  forall (raw : OneButton) (pin activeLow : Z),
    let b := construct raw pin activeLow in
    let r := ticks [(_buttonPressed b, 0); (_buttonReleased b, 50);
                    (_buttonReleased b, 301)] b in
    _clickFunc b = _clickFunc raw
    /\ _doubleClickFunc b = NULL
    /\ _pressFunc b = NULL
    /\ _longPressStartFunc b = NULL
    /\ _longPressStopFunc b = NULL
    /\ _duringLongPressFunc b = NULL
    /\ value r = [PRESSED_STATE; 0; CLICK_STATE]
    /\ invoked r = fired (_clickFunc raw).
Proof.
  intros raw pin activeLow b r. unfold r, b. rewrite construct_eq.
  cbn [_clickFunc _doubleClickFunc _pressFunc _longPressStartFunc
       _longPressStopFunc _duringLongPressFunc _buttonPressed _buttonReleased].
  repeat (split; [reflexivity|]).
  unfold value, invoked.
  destruct (negb (activeLow =? 0)); cbn [ticks]; unfold_tick;
    unfold ulong, ULONG_BITS, HIGH, LOW; cbn;
    destruct (PRESSED_STATE =? 0); cbn;
    destruct (CLICK_STATE =? 0); cbn;
    rewrite ?app_nil_r; split; reflexivity.
Qed.

(** C4.  Default thresholds (250 and 600), a button in Idle, samples
    pressed at 0, released at 50, pressed at 100, released at 150: the
    four ticks return the pressed event, nothing, nothing and the
    double-click event; the only function invoked is the double-click
    function, on the last tick; no tick returns the click event. *)
Theorem C4_double_click_scenario :
  codes_distinct ->
  forall b : OneButton,
    _state b = state_code Idle ->
    _clickTicks b = 250 ->
    _pressTicks b = 600 ->
    wired b ->
    let r := ticks [(_buttonPressed b, 0); (_buttonReleased b, 50);
                    (_buttonPressed b, 100); (_buttonReleased b, 150)] b in
    value r = [PRESSED_STATE; 0; 0; DOUBLE_CLICK_STATE]
    /\ invoked r = fired (_doubleClickFunc b)
    /\ ~ In CLICK_STATE (value r)
    /\ _state (object r) = state_code Idle.
Proof.
  intros Hcodes b Hs Hct Hpt Hw r. cbn [state_code] in *.
  destruct (codes_distinct_click Hcodes) as (Hc0 & HcP & HcD).
  assert (Hr : r = ([PRESSED_STATE; 0; 0; DOUBLE_CLICK_STATE],
                    stamp DOUBLE_CLICK_STATE 150
                      (set_state 0 (set_state 3 (set_state 2
                         (stamp PRESSED_STATE 0
                            (set_startTime 0 (set_state 1 b)))))),
                    fired (_doubleClickFunc b))).
  { unfold r. rewrite !ticks_cons. cbn [ticks ret].
    rewrite (row_idle_pressed b _ 0 Hs eq_refl).
    cbn [value object invoked fst snd].
    set (b1 := stamp PRESSED_STATE 0 (set_startTime 0 (set_state 1 b))).
    assert (Hb1 : _state b1 = 1 /\ _startTime b1 = 0
                  /\ _clickTicks b1 = 250
                  /\ _buttonPressed b1 = _buttonPressed b
                  /\ _buttonReleased b1 = _buttonReleased b
                  /\ _doubleClickFunc b1 = _doubleClickFunc b).
    { unfold b1, stamp.
      destruct (negb (PRESSED_STATE =? 0)); cbn; repeat split; auto. }
    destruct Hb1 as (Hs1 & Ht1 & Hc1 & Hp1 & Hr1 & Hd1).
    rewrite (row_press_released b1 _ 50 Hs1) by (symmetry; exact Hr1).
    cbn [value object invoked fst snd].
    rewrite (row_wait_pressed (set_state 2 b1) _ 100).
    2: reflexivity.
    2: { cbn. rewrite Ht1, Hc1. change (ulong (0 + 250)) with 250. lia. }
    2: { symmetry. exact Hp1. }
    cbn [value object invoked fst snd].
    rewrite (row_second_released (set_state 3 (set_state 2 b1)) _ 150).
    2: reflexivity.
    2: { symmetry. exact Hr1. }
    cbn [value object invoked fst snd _doubleClickFunc set_state].
    rewrite Hd1, app_nil_r. reflexivity. }
  rewrite Hr. cbn [value object invoked fst snd].
  rewrite stamp_state. cbn -[In].
  repeat split; auto.
  cbn. intros [H | [H | [H | [H | []]]]]; congruence.
Qed.

(** C5.  Whatever calls a sketch makes on a constructed button (ticks
    with any level and time, threshold setters, registrations), [_state]
    is the number of one of the five states Idle, PressDetected,
    WaitSecondPress, WaitSecondRelease, LongPressActive; and from each of
    the five states every sample has a transition, which ends in one of
    the five states. *)
Theorem C5_state_is_one_of_five :
  forall (raw : OneButton) (pin activeLow : Z) (calls : list Call)
         (s : State) (b : OneButton) (buttonLevel now : Z),
    valid_state (session calls (construct raw pin activeLow))
    /\ valid_state (object (tick buttonLevel now (set_state (state_code s) b))).
Proof.
  intros raw pin activeLow calls s b buttonLevel now. split.
  - apply (session_invariant valid_state).
    + intros c b0. apply perform_valid_state.
    + apply construct_valid_state.
  - apply tick_valid_state. exists s. reflexivity.
Qed.

(** C6.  Provided none of the six event codes is the [0] of no event:
    a tick returns [0] or one of the six codes; when it returns one of
    the six, [getLastActivityTime] afterwards is the time that tick
    sampled; when it returns [0], [getLastActivityTime] is what it was.
    So over a run of ticks that all return [0] it does not change, and
    after a tick that returned an event followed by such a run it is that
    tick's time. *)
Theorem C6_last_activity_time :
  codes_nonzero ->
  forall (b : OneButton) (pre post : list (Z * Z)) (buttonLevel now : Z),
    let r := tick buttonLevel now b in
    let r' := tick buttonLevel now (object (ticks pre b)) in
    (value r = 0 \/ In (value r) event_codes)
    /\ (In (value r) event_codes ->
        value (getLastActivityTime (object r)) = now)
    /\ (value r = 0 ->
        value (getLastActivityTime (object r)) = value (getLastActivityTime b))
    /\ (Forall (fun e => e = 0) (value (ticks post b)) ->
        value (getLastActivityTime (object (ticks post b)))
        = value (getLastActivityTime b))
    /\ (In (value r') event_codes ->
        Forall (fun e => e = 0) (value (ticks post (object r'))) ->
        value (getLastActivityTime
                 (object (ticks (pre ++ (buttonLevel, now) :: post) b)))
        = now).
Proof.
  intros Hcodes b pre post buttonLevel now r r'.
  assert (Hevent : forall e, In e event_codes -> negb (e =? 0) = true).
  { intros e He. unfold codes_nonzero in Hcodes.
    rewrite Forall_forall in Hcodes. apply Hcodes in He.
    apply Z.eqb_neq in He. rewrite He. reflexivity. }
  unfold getLastActivityTime, value, bind, this, ret. cbn [fst snd].
  fold (value r). fold (value r').
  repeat split.
  - apply tick_value_cases.
  - intros He. unfold r. rewrite tick_last_activity.
    fold r. rewrite (Hevent _ He). reflexivity.
  - intros He. unfold r. rewrite tick_last_activity.
    fold r. rewrite He. reflexivity.
  - apply ticks_quiet.
  - intros He Hq. rewrite ticks_app. cbn [object fst snd].
    rewrite ticks_cons. cbn [object fst snd]. fold r'.
    rewrite ticks_quiet by exact Hq.
    unfold r'. rewrite tick_last_activity. fold r'.
    rewrite (Hevent _ He). reflexivity.
Qed.

(** C7.  In PressDetected, a pressed sample later than the long-press
    deadline (start time plus [_pressTicks], as an [unsigned long]) makes
    one tick invoke the registered press, long-press-start and
    during-long-press functions, in this order, enter LongPressActive and
    return the long-press-start event; a function that is not registered
    is skipped. *)
Theorem C7_long_press_start_handler_order :
  forall (b : OneButton) (buttonLevel now : Z),
    _state b = state_code PressDetected ->
    wired b ->
    pressed b buttonLevel ->
    now > ulong (_startTime b + _pressTicks b) ->
    let r := tick buttonLevel now b in
    value r = LONG_PRESS_START_STATE
    /\ _state (object r) = state_code LongPressActive
    /\ _isLongPressed (object r) = true
    /\ invoked r = fired (_pressFunc b) ++ fired (_longPressStartFunc b)
                     ++ fired (_duringLongPressFunc b)
    /\ (forall p s d : handler,
          _pressFunc b = Some p ->
          _longPressStartFunc b = Some s ->
          _duringLongPressFunc b = Some d ->
          invoked r = [p; s; d]).
Proof.
  intros b buttonLevel now Hs Hw Hl Ht r. cbn [state_code] in *.
  unfold r. rewrite (row_press_long b buttonLevel now Hs Hw Hl Ht).
  cbn [value object invoked fst snd].
  rewrite stamp_state, stamp_flag. cbn.
  repeat split.
  intros p s d -> -> ->. reflexivity.
Qed.

(** C8.  A threshold setter or a registration changes neither [_state],
    [_startTime], [_isLongPressed] nor [_lastActivityTime], and invokes
    nothing.  The new threshold is what the next comparison adds to the
    start time already stored: after [setClickTicks ms] a tick in
    WaitSecondPress times out exactly when [now] is past
    [_startTime + ms], and after [setPressTicks ms] a pressed tick in
    PressDetected enters LongPressActive exactly when [now] is past
    [_startTime + ms]. *)
Theorem C8_configuration_frame :
  forall (c : Config) (b : OneButton) (ms buttonLevel now : Z),
    (_state (object (configure c b)) = _state b
     /\ _startTime (object (configure c b)) = _startTime b
     /\ value (isLongPressed (object (configure c b)))
        = value (isLongPressed b)
     /\ value (getLastActivityTime (object (configure c b)))
        = value (getLastActivityTime b)
     /\ invoked (configure c b) = [])
    /\ (_state b = state_code WaitSecondPress ->
        (_state (object (tick buttonLevel now (object (setClickTicks ms b))))
         = state_code Idle
         <-> now > ulong (_startTime b + ms)))
    /\ (_state b = state_code PressDetected ->
        wired b -> pressed b buttonLevel ->
        (_state (object (tick buttonLevel now (object (setPressTicks ms b))))
         = state_code LongPressActive
         <-> now > ulong (_startTime b + ms))).
Proof.
  intros c b ms buttonLevel now. cbn [state_code]. split; [|split].
  - destruct c; repeat split.
  - intros Hs. unfold setClickTicks, assign, object at 2. cbn [fst snd].
    destruct (Z.gtb_spec now (ulong (_startTime b + ms))) as [Hgt | Hle].
    + rewrite row_wait_timeout by (cbn; auto; lia).
      cbn [object fst snd]. rewrite stamp_state. cbn. split; intros; lia.
    + unfold object. unfold_tick. cbn. rewrite Hs. cbn. case_conds.
      * split; intros; lia.
      * rewrite Hs. split; intros; lia.
  - intros Hs Hw Hl. unfold setPressTicks, assign, object at 2. cbn [fst snd].
    destruct (Z.gtb_spec now (ulong (_startTime b + ms))) as [Hgt | Hle].
    + rewrite row_press_long by (cbn; auto; lia).
      cbn [object fst snd]. rewrite stamp_state. cbn. split; intros; lia.
    + rewrite row_press_held; cbn; auto.
      * rewrite Hs. split; intros; lia.
      * unfold released, pressed, wired in *. cbn. congruence.
Qed.

(** C9.  After the constructor and after every later call, [isLongPressed]
    returns true exactly when the state is LongPressActive.  A tick that
    turns the flag on is the transition from PressDetected into
    LongPressActive; a tick that turns it off is the release that leaves
    LongPressActive for Idle and returns the long-press-stop event. *)
Theorem C9_long_press_flag_mirrors_state :
  forall (raw : OneButton) (pin activeLow : Z) (calls : list Call)
         (buttonLevel now : Z),
    let b := session calls (construct raw pin activeLow) in
    let r := tick buttonLevel now b in
    (value (isLongPressed b) = true <-> _state b = state_code LongPressActive)
    /\ (value (isLongPressed b) = false ->
        value (isLongPressed (object r)) = true ->
        _state b = state_code PressDetected
        /\ _state (object r) = state_code LongPressActive
        /\ value r = LONG_PRESS_START_STATE)
    /\ (value (isLongPressed b) = true ->
        value (isLongPressed (object r)) = false ->
        _state b = state_code LongPressActive
        /\ _state (object r) = state_code Idle
        /\ released b buttonLevel
        /\ value r = LONG_PRESS_STOP_STATE).
Proof.
  intros raw pin activeLow calls buttonLevel now b r.
  assert (Hb : flag_mirrors_state b).
  { unfold b. apply (session_invariant flag_mirrors_state).
    - intros c b0. apply perform_flag_mirrors_state.
    - apply construct_flag_mirrors_state. }
  assert (Hr : flag_mirrors_state (object r)).
  { apply tick_flag_mirrors_state. exact Hb. }
  unfold flag_mirrors_state in Hb, Hr. cbn [state_code] in *.
  change (value (isLongPressed b)) with (_isLongPressed b).
  change (value (isLongPressed (object r))) with (_isLongPressed (object r)).
  split; [exact Hb | split].
  - intros Hoff Hon. apply Hr in Hon.
    assert (Hne : _state b <> 6).
    { intros H6. apply Hb in H6. congruence. }
    destruct (tick_enters_long_press b buttonLevel now Hne Hon) as [H1 He].
    auto.
  - intros Hon Hoff. apply Hb in Hon.
    assert (Hne : _state (object r) <> 6).
    { intros H6. apply Hr in H6. congruence. }
    destruct (tick_leaves_long_press b buttonLevel now Hon Hne)
      as (H0 & Hrel & He).
    auto.
Qed.

(** C10.  In WaitSecondRelease nothing is timed.  Pressed samples at any
    times at all return no event, invoke nothing and leave the object as
    it is, so the long-press-start event is never returned and
    [isLongPressed] stays false; a released sample at any time after
    them returns the double-click event, invokes the double-click
    function if one is registered, and ends in Idle.  Over the whole run
    the double-click event is returned exactly once.  (The event codes
    are taken to differ from the [0] of no event.) *)
Theorem C10_second_release_has_no_deadline :
  codes_nonzero ->
  forall (b : OneButton) (times : list Z) (now : Z),
    _state b = state_code WaitSecondRelease ->
    wired b ->
    _isLongPressed b = false ->
    let held := ticks (map (fun t => (_buttonPressed b, t)) times) b in
    let r := tick (_buttonReleased b) now (object held) in
    value held = map (fun _ => 0) times
    /\ ~ In LONG_PRESS_START_STATE (value held)
    /\ invoked held = []
    /\ _state (object held) = state_code WaitSecondRelease
    /\ value (isLongPressed (object held)) = false
    /\ value r = DOUBLE_CLICK_STATE
    /\ count_occ Z.eq_dec (value held ++ [value r]) DOUBLE_CLICK_STATE = 1%nat
    /\ invoked r = fired (_doubleClickFunc b)
    /\ _state (object r) = state_code Idle
    /\ value (isLongPressed (object r)) = false.
Proof.
  intros Hcodes b times now Hs Hw Hflag held r. cbn [state_code] in *.
  assert (Hstart : LONG_PRESS_START_STATE <> 0
                   /\ DOUBLE_CLICK_STATE <> 0).
  { unfold codes_nonzero, event_codes in Hcodes.
    rewrite Forall_forall in Hcodes. split; apply Hcodes; cbn; tauto. }
  destruct Hstart as [Hstart Hdouble].
  assert (Hheld : held = (map (fun _ => 0) times, b, [])).
  { apply ticks_second_held; [exact Hs|]. unfold released. exact Hw. }
  unfold r. rewrite Hheld. cbn [value object invoked fst snd].
  rewrite row_second_released by (auto; reflexivity).
  cbn [value object invoked fst snd].
  change (value (isLongPressed b)) with (_isLongPressed b).
  change (value (isLongPressed (stamp DOUBLE_CLICK_STATE now (set_state 0 b))))
    with (_isLongPressed (stamp DOUBLE_CLICK_STATE now (set_state 0 b))).
  rewrite stamp_state, stamp_flag.
  rewrite count_occ_app, count_occ_no_event by exact Hdouble.
  rewrite (count_occ_cons_eq Z.eq_dec [] (eq_refl DOUBLE_CLICK_STATE)).
  cbn -[In].
  repeat split; auto.
  intros Hin. apply in_map_iff in Hin. destruct Hin as (t & Ht & _).
  congruence.
Qed.

(** * Further properties *)

(** ** What a tick leaves alone *)

Lemma tick_settings (b : OneButton) (buttonLevel now : Z) :
  let b' := object (tick buttonLevel now b) in
  _pin b' = _pin b
  /\ _clickTicks b' = _clickTicks b
  /\ _pressTicks b' = _pressTicks b
  /\ _buttonReleased b' = _buttonReleased b
  /\ _buttonPressed b' = _buttonPressed b
  /\ _clickFunc b' = _clickFunc b
  /\ _doubleClickFunc b' = _doubleClickFunc b
  /\ _pressFunc b' = _pressFunc b
  /\ _longPressStartFunc b' = _longPressStartFunc b
  /\ _longPressStopFunc b' = _longPressStopFunc b
  /\ _duringLongPressFunc b' = _duringLongPressFunc b.
Proof.
  unfold object. unfold_tick. cbn.
  repeat match goal with
  | |- context [if ?c then _ else _] => destruct c; cbn
  end; repeat split.
Qed.

Lemma ticks_settings :
  forall (samples : list (Z * Z)) (b : OneButton),
    let b' := object (ticks samples b) in
    _pin b' = _pin b
    /\ _clickTicks b' = _clickTicks b
    /\ _pressTicks b' = _pressTicks b
    /\ _buttonReleased b' = _buttonReleased b
    /\ _buttonPressed b' = _buttonPressed b
    /\ _clickFunc b' = _clickFunc b
    /\ _doubleClickFunc b' = _doubleClickFunc b
    /\ _pressFunc b' = _pressFunc b
    /\ _longPressStartFunc b' = _longPressStartFunc b
    /\ _longPressStopFunc b' = _longPressStopFunc b
    /\ _duringLongPressFunc b' = _duringLongPressFunc b.
Proof.
  induction samples as [|[buttonLevel now] rest IH]; intros b.
  - cbn. repeat split.
  - cbv zeta. rewrite ticks_cons. cbn [object fst snd].
    specialize (IH (object (tick buttonLevel now b))). cbv zeta in IH.
    pose proof (tick_settings b buttonLevel now) as H. cbv zeta in H.
    destruct IH as (I1 & I2 & I3 & I4 & I5 & I6 & I7 & I8 & I9 & I10 & I11).
    destruct H as (H1 & H2 & H3 & H4 & H5 & H6 & H7 & H8 & H9 & H10 & H11).
    repeat split; congruence.
Qed.

(** X1.  No run of ticks changes the configuration: the pin, the two
    thresholds, the two levels of the wiring and the six registered
    functions are after the run what they were before it. *)
Theorem X1_ticks_keep_configuration :
  forall (samples : list (Z * Z)) (b : OneButton),
    let b' := object (ticks samples b) in
    _pin b' = _pin b
    /\ _clickTicks b' = _clickTicks b
    /\ _pressTicks b' = _pressTicks b
    /\ _buttonReleased b' = _buttonReleased b
    /\ _buttonPressed b' = _buttonPressed b
    /\ _clickFunc b' = _clickFunc b
    /\ _doubleClickFunc b' = _doubleClickFunc b
    /\ _pressFunc b' = _pressFunc b
    /\ _longPressStartFunc b' = _longPressStartFunc b
    /\ _longPressStopFunc b' = _longPressStopFunc b
    /\ _duringLongPressFunc b' = _duringLongPressFunc b.
Proof. exact ticks_settings. Qed.

(** ** The wiring *)

Lemma session_levels (raw : OneButton) (pin activeLow : Z) (calls : list Call) :
  _buttonPressed (session calls (construct raw pin activeLow))
  = (if negb (activeLow =? 0) then LOW else HIGH)
  /\ _buttonReleased (session calls (construct raw pin activeLow))
     = (if negb (activeLow =? 0) then HIGH else LOW).
Proof.
  apply (session_invariant
           (fun b => _buttonPressed b = (if negb (activeLow =? 0) then LOW else HIGH)
                     /\ _buttonReleased b
                        = (if negb (activeLow =? 0) then HIGH else LOW))).
  - intros c b [Hp Hr]. destruct c as [buttonLevel now | c]; cbn [perform].
    + destruct (tick_wiring b buttonLevel now) as [-> ->]. auto.
    + destruct c; cbn; auto.
  - rewrite construct_eq. cbn. auto.
Qed.

(** X2.  The constructor fixes the polarity for good.  Whatever calls
    follow it, an active-low button (non-zero [activeLow]) is pressed at
    [LOW] and released at [HIGH], an active-high one the other way
    round; [isPressed] and [isReleased] never both answer true, and on a
    level that is [HIGH] or [LOW] exactly one of them does. *)
Theorem X2_polarity :
  forall (raw : OneButton) (pin activeLow : Z) (calls : list Call)
         (buttonLevel : Z),
    let b := session calls (construct raw pin activeLow) in
    _buttonPressed b = (if negb (activeLow =? 0) then LOW else HIGH)
    /\ _buttonReleased b = (if negb (activeLow =? 0) then HIGH else LOW)
    /\ value (isPressed buttonLevel b) && value (isReleased buttonLevel b)
       = false
    /\ (buttonLevel = HIGH \/ buttonLevel = LOW ->
        value (isReleased buttonLevel b)
        = negb (value (isPressed buttonLevel b))).
Proof.
  intros raw pin activeLow calls buttonLevel b.
  destruct (session_levels raw pin activeLow calls) as [Hp Hr].
  fold b in Hp, Hr.
  change (value (isPressed buttonLevel b))
    with (buttonLevel =? _buttonPressed b).
  change (value (isReleased buttonLevel b))
    with (buttonLevel =? _buttonReleased b).
  rewrite Hp, Hr. unfold HIGH, LOW.
  split; [reflexivity | split; [reflexivity | split]].
  - destruct (negb (activeLow =? 0));
      destruct (Z.eqb_spec buttonLevel 0); destruct (Z.eqb_spec buttonLevel 1);
      try reflexivity; lia.
  - intros [-> | ->]; destruct (negb (activeLow =? 0)); reflexivity.
Qed.

(** ** Telling the events apart *)

Lemma codes_distinct_pairwise :
  codes_distinct ->
  PRESSED_STATE <> 0
  /\ CLICK_STATE <> 0
  /\ DOUBLE_CLICK_STATE <> 0
  /\ LONG_PRESS_START_STATE <> 0
  /\ DURING_LONG_PRESS_STATE <> 0
  /\ LONG_PRESS_STOP_STATE <> 0
  /\ CLICK_STATE <> PRESSED_STATE
  /\ DOUBLE_CLICK_STATE <> PRESSED_STATE
  /\ LONG_PRESS_START_STATE <> PRESSED_STATE
  /\ DURING_LONG_PRESS_STATE <> PRESSED_STATE
  /\ LONG_PRESS_STOP_STATE <> PRESSED_STATE
  /\ DOUBLE_CLICK_STATE <> CLICK_STATE
  /\ LONG_PRESS_START_STATE <> CLICK_STATE
  /\ DURING_LONG_PRESS_STATE <> CLICK_STATE
  /\ LONG_PRESS_STOP_STATE <> CLICK_STATE
  /\ LONG_PRESS_START_STATE <> DOUBLE_CLICK_STATE
  /\ DURING_LONG_PRESS_STATE <> DOUBLE_CLICK_STATE
  /\ LONG_PRESS_STOP_STATE <> DOUBLE_CLICK_STATE
  /\ DURING_LONG_PRESS_STATE <> LONG_PRESS_START_STATE
  /\ LONG_PRESS_STOP_STATE <> LONG_PRESS_START_STATE
  /\ LONG_PRESS_STOP_STATE <> DURING_LONG_PRESS_STATE.
Proof.
  unfold codes_distinct, event_codes. intros H.
  rewrite !NoDup_cons_iff in H. cbn in H.
  repeat split; intros E; rewrite E in H; tauto.
Qed.

Ltac distinct_codes H :=
  destruct (codes_distinct_pairwise H)
    as (N0 & N1 & N2 & N3 & N4 & N5 & N6 & N7 & N8 & N9 & N10 & N11 & N12 & N13 & N14 & N15 & N16 & N17 & N18 & N19 & N20).

Ltac decide_codes :=
  repeat match goal with
  | |- context [?x =? ?y] =>
      first [ rewrite (Z.eqb_refl x)
            | rewrite (proj2 (Z.eqb_neq x y)) by assumption ]
  end.

(** What a tick returns, with what it invokes. *)
Lemma tick_outcomes (b : OneButton) (buttonLevel now : Z) :
  let r := tick buttonLevel now b in
  (value r = 0 /\ invoked r = [])
  \/ (value r = PRESSED_STATE /\ invoked r = [])
  \/ (value r = CLICK_STATE /\ invoked r = fired (_clickFunc b))
  \/ (value r = DOUBLE_CLICK_STATE
      /\ invoked r = fired (_doubleClickFunc b))
  \/ (value r = LONG_PRESS_START_STATE
      /\ invoked r = fired (_pressFunc b) ++ fired (_longPressStartFunc b)
                       ++ fired (_duringLongPressFunc b))
  \/ (value r = DURING_LONG_PRESS_STATE
      /\ invoked r = fired (_duringLongPressFunc b))
  \/ (value r = LONG_PRESS_STOP_STATE
      /\ invoked r = fired (_longPressStopFunc b)).
Proof.
  unfold value, invoked. unfold_tick. cbn.
  repeat match goal with
  | |- context [if ?c then _ else _] => destruct c; cbn
  end; rewrite ?app_nil_r; tauto.
Qed.

(** X3.  Which functions a tick invokes is decided by the event it
    returns (the six codes being distinct and none of them [0]): none for
    no event and none for the pressed event, the click function for
    click, the double-click function for double click, the press,
    long-press-start and during-long-press functions in this order for
    long-press start, the during-long-press function for during long
    press, the long-press-stop function for long-press stop; each only if
    registered. *)
Theorem X3_callbacks_follow_the_event :
  codes_distinct ->
  forall (b : OneButton) (buttonLevel now : Z),
    invoked (tick buttonLevel now b)
    = callbacks_for b (value (tick buttonLevel now b)).
Proof.
  intros Hcodes b buttonLevel now. distinct_codes Hcodes.
  destruct (tick_outcomes b buttonLevel now)
    as [[-> ->] | [[-> ->] | [[-> ->] | [[-> ->] | [[-> ->] | [[-> ->]
       | [-> ->]]]]]]];
    unfold callbacks_for; decide_codes; reflexivity.
Qed.

(** ** The shape of the event stream *)

Lemma tick_phase (s : State) (b : OneButton) (buttonLevel now : Z) :
  codes_distinct ->
  _state b = state_code s ->
  exists s' : State,
    _state (object (tick buttonLevel now b)) = state_code s'
    /\ next_phase (phase s) (value (tick buttonLevel now b))
       = Some (phase s').
Proof.
  intros Hcodes Hs. distinct_codes Hcodes.
  unfold object, value. unfold_tick.
  destruct s; cbn in Hs; rewrite Hs; cbn;
    repeat match goal with
    | |- context [if ?c then _ else _] => destruct c eqn:?; cbn
    end;
    rewrite ?Hs;
    first [ exists Idle; split; [reflexivity|]
          | exists PressDetected; split; [reflexivity|]
          | exists WaitSecondPress; split; [reflexivity|]
          | exists WaitSecondRelease; split; [reflexivity|]
          | exists LongPressActive; split; [reflexivity|] ];
    unfold next_phase; cbn [phase]; decide_codes; reflexivity.
Qed.

(** X4.  The events of any run of ticks come in the order
    pressed, then click or double click or long-press start; after
    long-press start any number of during-long-press, then
    long-press stop; and again from pressed.  Started in state [s], the
    stream is one that may follow the phase of [s], and the phase it
    leads to is that of the state the run ends in.  (The six codes are
    taken distinct and different from [0].) *)
Theorem X4_event_stream_is_well_formed :
  codes_distinct ->
  forall (samples : list (Z * Z)) (s : State) (b : OneButton),
    _state b = state_code s ->
    exists s' : State,
      _state (object (ticks samples b)) = state_code s'
      /\ phase_after (phase s) (value (ticks samples b)) = Some (phase s').
Proof.
  intros Hcodes samples.
  induction samples as [|[buttonLevel now] rest IH]; intros s b Hs.
  - exists s. split; [exact Hs | reflexivity].
  - destruct (tick_phase s b buttonLevel now Hcodes Hs) as (s1 & Hs1 & Hp1).
    destruct (IH s1 _ Hs1) as (s2 & Hs2 & Hp2).
    exists s2. rewrite ticks_cons. cbn [value object fst snd phase_after].
    rewrite Hp1. split; [exact Hs2 | exact Hp2].
Qed.

(** ** The storage the constructor found *)

Lemma agree_refl (b : OneButton) : agree b b.
Proof. split; reflexivity. Qed.

Lemma agree_observable (b1 b2 : OneButton) :
  agree b1 b2 ->
  _state b1 = _state b2
  /\ _isLongPressed b1 = _isLongPressed b2
  /\ _lastActivityTime b1 = _lastActivityTime b2.
Proof.
  intros [Hf _].
  repeat split;
    [ apply (f_equal _state) in Hf
    | apply (f_equal _isLongPressed) in Hf
    | apply (f_equal _lastActivityTime) in Hf ]; exact Hf.
Qed.

Lemma tick_agree (b1 b2 : OneButton) (buttonLevel now : Z) :
  agree b1 b2 ->
  value (tick buttonLevel now b1) = value (tick buttonLevel now b2)
  /\ invoked (tick buttonLevel now b1) = invoked (tick buttonLevel now b2)
  /\ agree (object (tick buttonLevel now b1))
           (object (tick buttonLevel now b2)).
Proof.
  intros [Hf Hst].
  destruct b1 as [p1 c1 l1 a1 s1 f1 r1 d1 k1 dk1 pk1 sk1 ek1 uk1 t1].
  destruct b2 as [p2 c2 l2 a2 s2 f2 r2 d2 k2 dk2 pk2 sk2 ek2 uk2 t2].
  unfold set_startTime in Hf. cbn in Hf, Hst.
  injection Hf as -> -> -> -> -> -> -> -> -> -> -> -> -> ->.
  destruct (Z.eq_dec s2 0) as [-> | Hn].
  - unfold value, invoked, object, agree. unfold_tick. cbn.
    destruct (buttonLevel =? d2); cbn;
      destruct (PRESSED_STATE =? 0); cbn;
      repeat split; try reflexivity; intros; congruence.
  - rewrite (Hst Hn). repeat split; reflexivity.
Qed.

Lemma ticks_agree (samples : list (Z * Z)) (b1 b2 : OneButton) :
  agree b1 b2 ->
  value (ticks samples b1) = value (ticks samples b2)
  /\ invoked (ticks samples b1) = invoked (ticks samples b2)
  /\ agree (object (ticks samples b1)) (object (ticks samples b2)).
Proof.
  revert b1 b2.
  induction samples as [|[buttonLevel now] rest IH]; intros b1 b2 Hb.
  - cbn. repeat split; try reflexivity; apply Hb.
  - rewrite !ticks_cons. cbn [value object invoked fst snd].
    destruct (tick_agree b1 b2 buttonLevel now Hb) as (Hv & Hi & Ha).
    destruct (IH _ _ Ha) as (Hvs & His & Has).
    rewrite Hv, Hi, Hvs, His. repeat split; apply Has.
Qed.

(** X5.  Of the storage the constructor found, only the bytes of
    [_clickFunc] can show in how the button behaves.  Two buttons
    constructed alike in storages that agree on [_clickFunc] return the
    same events, invoke the same functions and answer the accessors
    alike over every run of ticks: the [_startTime] the constructor
    leaves unset is written by [tick] before it is read.  Once
    [attachClick] has been called the storage does not show at all. *)
Theorem X5_raw_storage_shows_only_in_click_member :
  forall (raw1 raw2 : OneButton) (pin activeLow : Z)
         (newFunction : callbackFunction) (samples : list (Z * Z)),
    (_clickFunc raw1 = _clickFunc raw2 ->
     let r1 := ticks samples (construct raw1 pin activeLow) in
     let r2 := ticks samples (construct raw2 pin activeLow) in
     value r1 = value r2
     /\ invoked r1 = invoked r2
     /\ _state (object r1) = _state (object r2)
     /\ value (isLongPressed (object r1)) = value (isLongPressed (object r2))
     /\ value (getLastActivityTime (object r1))
        = value (getLastActivityTime (object r2)))
    /\ (let r1 := ticks samples
                    (object (attachClick newFunction
                               (construct raw1 pin activeLow))) in
        let r2 := ticks samples
                    (object (attachClick newFunction
                               (construct raw2 pin activeLow))) in
        value r1 = value r2
        /\ invoked r1 = invoked r2
        /\ _state (object r1) = _state (object r2)
        /\ value (isLongPressed (object r1))
           = value (isLongPressed (object r2))
        /\ value (getLastActivityTime (object r1))
           = value (getLastActivityTime (object r2))).
Proof.
  intros raw1 raw2 pin activeLow newFunction samples.
  assert (Hrun : forall b1 b2, agree b1 b2 ->
            value (ticks samples b1) = value (ticks samples b2)
            /\ invoked (ticks samples b1) = invoked (ticks samples b2)
            /\ _state (object (ticks samples b1))
               = _state (object (ticks samples b2))
            /\ value (isLongPressed (object (ticks samples b1)))
               = value (isLongPressed (object (ticks samples b2)))
            /\ value (getLastActivityTime (object (ticks samples b1)))
               = value (getLastActivityTime (object (ticks samples b2)))).
  { intros b1 b2 Hb.
    destruct (ticks_agree samples b1 b2 Hb) as (Hv & Hi & Ha).
    destruct (agree_observable _ _ Ha) as (Hs & Hf & Hl).
    repeat split; assumption. }
  split.
  - intros Hclick. cbv zeta. apply Hrun.
    rewrite !construct_eq. unfold agree, set_startTime. cbn.
    rewrite Hclick. split; [reflexivity | intros H; congruence].
  - cbv zeta. apply Hrun.
    rewrite !construct_eq. unfold agree, set_startTime. cbn.
    split; [reflexivity | intros H; congruence].
Qed.

(** ** Waiting in one state *)

Lemma stamp_eq (e now : Z) (b : OneButton) :
  stamp e now b
  = set_lastActivityTime
      (if negb (e =? 0) then now else _lastActivityTime b) b.
Proof.
  unfold stamp. destruct (negb (e =? 0)); [reflexivity|].
  destruct b. reflexivity.
Qed.

Lemma ticks_press_held (holds : list Z) (b : OneButton) (buttonLevel : Z) :
  _state b = 1 -> ~ released b buttonLevel ->
  Forall (fun t => t <= ulong (_startTime b + _pressTicks b)) holds ->
  ticks (map (fun t => (buttonLevel, t)) holds) b
  = (map (fun _ => 0) holds, b, []).
Proof.
  intros Hs Hl Hholds. induction Hholds as [|t holds Ht _ IH].
  - reflexivity.
  - cbn [map]. rewrite ticks_cons.
    rewrite (row_press_held b buttonLevel t Hs Hl Ht).
    cbn [value object invoked fst snd]. rewrite IH. reflexivity.
Qed.

Lemma ticks_wait_released (waits : list Z) (b : OneButton) (buttonLevel : Z) :
  _state b = 2 -> ~ pressed b buttonLevel ->
  Forall (fun t => t <= ulong (_startTime b + _clickTicks b)) waits ->
  ticks (map (fun t => (buttonLevel, t)) waits) b
  = (map (fun _ => 0) waits, b, []).
Proof.
  intros Hs Hl Hwaits. induction Hwaits as [|t waits Ht _ IH].
  - reflexivity.
  - cbn [map]. rewrite ticks_cons.
    rewrite (row_wait_released b buttonLevel t Hs Ht Hl).
    cbn [value object invoked fst snd]. rewrite IH. reflexivity.
Qed.

Lemma ticks_long_held (times : list Z) (b : OneButton) (buttonLevel : Z) :
  _state b = 6 -> _isLongPressed b = true -> ~ released b buttonLevel ->
  value (ticks (map (fun t => (buttonLevel, t)) times) b)
  = map (fun _ => DURING_LONG_PRESS_STATE) times
  /\ invoked (ticks (map (fun t => (buttonLevel, t)) times) b)
     = concat (map (fun _ => fired (_duringLongPressFunc b)) times)
  /\ _state (object (ticks (map (fun t => (buttonLevel, t)) times) b)) = 6
  /\ _isLongPressed (object (ticks (map (fun t => (buttonLevel, t)) times) b))
     = true.
Proof.
  revert b. induction times as [|t times IH]; intros b Hs Hf Hl.
  - cbn. auto.
  - cbn [map]. rewrite ticks_cons.
    rewrite (row_long_held b buttonLevel t Hs Hl).
    cbn [value object invoked fst snd concat]. rewrite stamp_eq.
    set (b' := set_lastActivityTime _ (set_isLongPressed true b)).
    destruct (IH b') as (Hv & Hi & Hs' & Hf'); try reflexivity.
    + exact Hs.
    + exact Hl.
    + rewrite Hv, Hi. auto.
Qed.

(** ** Whole interactions *)

(** X6.  A single click, from Idle back to Idle.  The press is sampled at
    [t0]; it may be held over any samples not past the long-press
    deadline [t0 + _pressTicks]; it is released at any time [t1]; the
    button may stay released over any samples not past the click
    deadline [t0 + _clickTicks].  Then the first tick past the click
    deadline, whatever its level, returns the click event.  The run
    returns the pressed event, then nothing, then the click event,
    invokes the click function once if it is registered and nothing
    else, and ends in Idle. *)
Theorem X6_single_click :
  forall (b : OneButton) (t0 t1 buttonLevel t : Z) (holds waits : list Z),
    _state b = state_code Idle ->
    wired b ->
    Forall (fun h => h <= ulong (t0 + _pressTicks b)) holds ->
    Forall (fun w => w <= ulong (t0 + _clickTicks b)) waits ->
    t > ulong (t0 + _clickTicks b) ->
    let r := ticks ((_buttonPressed b, t0)
                      :: map (fun h => (_buttonPressed b, h)) holds
                      ++ (_buttonReleased b, t1)
                      :: map (fun w => (_buttonReleased b, w)) waits
                      ++ [(buttonLevel, t)]) b in
    value r = PRESSED_STATE
                :: map (fun _ => 0) holds
                ++ 0 :: map (fun _ => 0) waits ++ [CLICK_STATE]
    /\ invoked r = fired (_clickFunc b)
    /\ _state (object r) = state_code Idle
    /\ value (isLongPressed (object r)) = value (isLongPressed b).
Proof.
  intros b t0 t1 buttonLevel t holds waits Hs Hw Hholds Hwaits Ht r.
  cbn [state_code] in *. unfold wired in Hw. unfold r.
  rewrite ticks_cons.
  rewrite (row_idle_pressed b _ t0 Hs eq_refl).
  cbn [value object invoked fst snd]. rewrite stamp_eq.
  set (b1 := set_lastActivityTime _ (set_startTime t0 (set_state 1 b))).
  rewrite ticks_app.
  rewrite (ticks_press_held holds b1 (_buttonPressed b));
    [ | reflexivity | exact Hw | exact Hholds ].
  cbn [value object invoked fst snd]. rewrite ticks_cons.
  rewrite (row_press_released b1 (_buttonReleased b) t1 eq_refl eq_refl).
  cbn [value object invoked fst snd].
  set (b2 := set_state 2 b1).
  rewrite ticks_app.
  rewrite (ticks_wait_released waits b2 (_buttonReleased b));
    [ | reflexivity | intros E; apply Hw; symmetry; exact E | exact Hwaits ].
  cbn [value object invoked fst snd]. rewrite ticks_cons.
  rewrite (row_wait_timeout b2 buttonLevel t eq_refl Ht).
  cbn [value object invoked fst snd ticks ret]. rewrite stamp_eq.
  cbn. rewrite app_nil_r. repeat split.
Qed.

(** X7.  A double click, from Idle back to Idle.  As for a single click
    up to the wait in WaitSecondPress; then a second press sampled at
    [t2], not past the click deadline [t0 + _clickTicks]; it may be held
    over any samples at all, and its release at any time returns the
    double-click event.  The run returns the pressed event, then nothing,
    then the double-click event, invokes the double-click function once
    if it is registered and nothing else, and ends in Idle. *)
Theorem X7_double_click :
  forall (b : OneButton) (t0 t1 t2 t3 : Z) (holds waits holds2 : list Z),
    _state b = state_code Idle ->
    wired b ->
    Forall (fun h => h <= ulong (t0 + _pressTicks b)) holds ->
    Forall (fun w => w <= ulong (t0 + _clickTicks b)) waits ->
    t2 <= ulong (t0 + _clickTicks b) ->
    let r := ticks ((_buttonPressed b, t0)
                      :: map (fun h => (_buttonPressed b, h)) holds
                      ++ (_buttonReleased b, t1)
                      :: map (fun w => (_buttonReleased b, w)) waits
                      ++ (_buttonPressed b, t2)
                      :: map (fun h => (_buttonPressed b, h)) holds2
                      ++ [(_buttonReleased b, t3)]) b in
    value r = PRESSED_STATE
                :: map (fun _ => 0) holds
                ++ 0 :: map (fun _ => 0) waits
                ++ 0 :: map (fun _ => 0) holds2 ++ [DOUBLE_CLICK_STATE]
    /\ invoked r = fired (_doubleClickFunc b)
    /\ _state (object r) = state_code Idle
    /\ value (isLongPressed (object r)) = value (isLongPressed b).
Proof.
  intros b t0 t1 t2 t3 holds waits holds2 Hs Hw Hholds Hwaits Ht2 r.
  cbn [state_code] in *. unfold wired in Hw. unfold r.
  rewrite ticks_cons.
  rewrite (row_idle_pressed b _ t0 Hs eq_refl).
  cbn [value object invoked fst snd]. rewrite stamp_eq.
  set (b1 := set_lastActivityTime _ (set_startTime t0 (set_state 1 b))).
  rewrite ticks_app.
  rewrite (ticks_press_held holds b1 (_buttonPressed b));
    [ | reflexivity | exact Hw | exact Hholds ].
  cbn [value object invoked fst snd]. rewrite ticks_cons.
  rewrite (row_press_released b1 (_buttonReleased b) t1 eq_refl eq_refl).
  cbn [value object invoked fst snd].
  set (b2 := set_state 2 b1).
  rewrite ticks_app.
  rewrite (ticks_wait_released waits b2 (_buttonReleased b));
    [ | reflexivity | intros E; apply Hw; symmetry; exact E | exact Hwaits ].
  cbn [value object invoked fst snd]. rewrite ticks_cons.
  rewrite (row_wait_pressed b2 (_buttonPressed b) t2 eq_refl Ht2 eq_refl).
  cbn [value object invoked fst snd].
  set (b3 := set_state 3 b2).
  rewrite ticks_app.
  rewrite (ticks_second_held holds2 b3 (_buttonPressed b));
    [ | reflexivity | exact Hw ].
  cbn [value object invoked fst snd]. rewrite ticks_cons.
  rewrite (row_second_released b3 (_buttonReleased b) t3 eq_refl eq_refl).
  cbn [value object invoked fst snd ticks ret]. rewrite stamp_eq.
  cbn. rewrite app_nil_r. repeat split.
Qed.

(** X8.  A long press, from Idle back to Idle.  The press is sampled at
    [t0] and held over any samples not past the long-press deadline
    [t0 + _pressTicks]; the first pressed sample past the deadline
    returns the long-press-start event; every pressed sample after it
    returns the during-long-press event and invokes the
    during-long-press function again; the release returns the
    long-press-stop event.  The functions are invoked in the order
    press, long-press start, during long press (once for the start and
    once per later sample), long-press stop; the run ends in Idle with
    [isLongPressed] false. *)
Theorem X8_long_press :
  forall (b : OneButton) (t0 t t3 : Z) (holds durings : list Z),
    _state b = state_code Idle ->
    wired b ->
    Forall (fun h => h <= ulong (t0 + _pressTicks b)) holds ->
    t > ulong (t0 + _pressTicks b) ->
    let r := ticks ((_buttonPressed b, t0)
                      :: map (fun h => (_buttonPressed b, h)) holds
                      ++ (_buttonPressed b, t)
                      :: map (fun d => (_buttonPressed b, d)) durings
                      ++ [(_buttonReleased b, t3)]) b in
    value r = PRESSED_STATE
                :: map (fun _ => 0) holds
                ++ LONG_PRESS_START_STATE
                :: map (fun _ => DURING_LONG_PRESS_STATE) durings
                ++ [LONG_PRESS_STOP_STATE]
    /\ invoked r = fired (_pressFunc b) ++ fired (_longPressStartFunc b)
                     ++ fired (_duringLongPressFunc b)
                     ++ concat (map (fun _ => fired (_duringLongPressFunc b))
                                   durings)
                     ++ fired (_longPressStopFunc b)
    /\ _state (object r) = state_code Idle
    /\ value (isLongPressed (object r)) = false.
Proof.
  intros b t0 t t3 holds durings Hs Hw Hholds Ht r.
  cbn [state_code] in *. unfold wired in Hw. unfold r.
  rewrite ticks_cons.
  rewrite (row_idle_pressed b _ t0 Hs eq_refl).
  cbn [value object invoked fst snd]. rewrite stamp_eq.
  set (b1 := set_lastActivityTime _ (set_startTime t0 (set_state 1 b))).
  rewrite ticks_app.
  rewrite (ticks_press_held holds b1 (_buttonPressed b));
    [ | reflexivity | exact Hw | exact Hholds ].
  cbn [value object invoked fst snd]. rewrite ticks_cons.
  rewrite (row_press_long b1 (_buttonPressed b) t eq_refl Hw eq_refl Ht).
  cbn [value object invoked fst snd]. rewrite stamp_eq.
  set (b2 := set_lastActivityTime _ (set_state 6 (set_isLongPressed true b1))).
  rewrite ticks_app.
  destruct (ticks_long_held durings b2 (_buttonPressed b))
    as (Hv & Hi & Hs2 & Hf2); [reflexivity | reflexivity | exact Hw |].
  pose proof (ticks_settings
                (map (fun d => (_buttonPressed b, d)) durings) b2) as Hk.
  cbv zeta in Hk.
  destruct Hk as (_ & _ & _ & Hrel & _ & _ & _ & _ & _ & Hstop & _).
  set (b3 := object (ticks (map (fun d => (_buttonPressed b, d)) durings) b2))
    in *.
  cbn [value object invoked fst snd]. rewrite ticks_cons.
  rewrite (row_long_released b3 (_buttonReleased b) t3 Hs2)
    by (unfold released; rewrite Hrel; reflexivity).
  cbn [value object invoked fst snd ticks ret]. rewrite stamp_eq.
  rewrite Hv, Hi, Hstop. cbn. rewrite !app_nil_r.
  rewrite <- !app_assoc. repeat split.
Qed.

(** ** The deadlines when the clock or the sum wraps *)

Lemma ulong_wrapped (z : Z) :
  2 ^ ULONG_BITS <= z < 2 * 2 ^ ULONG_BITS -> ulong z = z - 2 ^ ULONG_BITS.
Proof.
  unfold ulong, ULONG_BITS. change (2 ^ 32) with 4294967296. intros H.
  symmetry. apply (Z.mod_unique z 4294967296 1); lia.
Qed.

Lemma wait_timeout_iff (b : OneButton) (buttonLevel now : Z) :
  _state b = 2 ->
  (_state (object (tick buttonLevel now b)) = 0
   <-> now > ulong (_startTime b + _clickTicks b)).
Proof.
  intros Hs.
  destruct (Z.gtb_spec now (ulong (_startTime b + _clickTicks b)))
    as [Hgt | Hle].
  - rewrite row_wait_timeout by (auto; lia).
    cbn [object fst snd]. rewrite stamp_state. cbn. split; intros; lia.
  - unfold object. unfold_tick. rewrite Hs. cbn. case_conds.
    + split; intros; lia.
    + rewrite Hs. split; intros; lia.
Qed.

Lemma press_long_iff (b : OneButton) (buttonLevel now : Z) :
  _state b = 1 -> wired b -> pressed b buttonLevel ->
  (_state (object (tick buttonLevel now b)) = 6
   <-> now > ulong (_startTime b + _pressTicks b)).
Proof.
  intros Hs Hw Hl.
  destruct (Z.gtb_spec now (ulong (_startTime b + _pressTicks b)))
    as [Hgt | Hle].
  - rewrite row_press_long by (auto; lia).
    cbn [object fst snd]. rewrite stamp_state. cbn. split; intros; lia.
  - rewrite row_press_held; auto.
    + cbn [object fst snd]. rewrite Hs. split; intros; lia.
    + unfold released, pressed, wired in *. congruence.
Qed.

(** X9.  The click deadline is the 32-bit sum [_startTime + _clickTicks].
    While the sum fits in 32 bits, WaitSecondPress times out exactly when
    [now] is greater than the sum, so a clock that has wrapped round to a
    value below [_startTime] does not time out.  When the sum does not
    fit, the deadline is the sum less [2 ^ 32], which is below
    [_startTime]: every tick whose clock has not wrapped yet times out at
    once, however short the real wait. *)
Theorem X9_click_deadline_wraps :
  forall (b : OneButton) (buttonLevel now : Z),
    _state b = state_code WaitSecondPress ->
    0 <= _startTime b < 2 ^ ULONG_BITS ->
    0 <= _clickTicks b < 2 ^ ULONG_BITS ->
    let after := _state (object (tick buttonLevel now b)) in
    (_startTime b + _clickTicks b < 2 ^ ULONG_BITS ->
     (after = state_code Idle <-> now > _startTime b + _clickTicks b)
     /\ (now < _startTime b -> after <> state_code Idle))
    /\ (2 ^ ULONG_BITS <= _startTime b + _clickTicks b ->
        (after = state_code Idle
         <-> now > _startTime b + _clickTicks b - 2 ^ ULONG_BITS)
        /\ (_startTime b <= now -> after = state_code Idle)).
Proof.
  intros b buttonLevel now Hs Hstart Hticks after. cbn [state_code] in *.
  pose proof (wait_timeout_iff b buttonLevel now Hs) as Hiff. fold after in Hiff.
  split; intros Hsum.
  - rewrite ulong_small in Hiff by lia. split; [exact Hiff|].
    intros Hback Hidle. apply Hiff in Hidle. lia.
  - rewrite ulong_wrapped in Hiff by lia. split; [exact Hiff|].
    intros Hnow. apply Hiff. lia.
Qed.

(** X10.  The long-press deadline is the 32-bit sum
    [_startTime + _pressTicks], with the same two edges: while the sum
    fits, a pressed tick in PressDetected enters LongPressActive exactly
    when [now] is greater than the sum; when it does not fit, every
    pressed tick whose clock has not wrapped yet enters LongPressActive
    at once. *)
Theorem X10_long_press_deadline_wraps :
  forall (b : OneButton) (buttonLevel now : Z),
    _state b = state_code PressDetected ->
    wired b ->
    pressed b buttonLevel ->
    0 <= _startTime b < 2 ^ ULONG_BITS ->
    0 <= _pressTicks b < 2 ^ ULONG_BITS ->
    let after := _state (object (tick buttonLevel now b)) in
    (_startTime b + _pressTicks b < 2 ^ ULONG_BITS ->
     (after = state_code LongPressActive
      <-> now > _startTime b + _pressTicks b))
    /\ (2 ^ ULONG_BITS <= _startTime b + _pressTicks b ->
        (after = state_code LongPressActive
         <-> now > _startTime b + _pressTicks b - 2 ^ ULONG_BITS)
        /\ (_startTime b <= now -> after = state_code LongPressActive)).
Proof.
  intros b buttonLevel now Hs Hw Hl Hstart Hticks after.
  cbn [state_code] in *.
  pose proof (press_long_iff b buttonLevel now Hs Hw Hl) as Hiff.
  fold after in Hiff.
  split; intros Hsum.
  - rewrite ulong_small in Hiff by lia. exact Hiff.
  - rewrite ulong_wrapped in Hiff by lia. split; [exact Hiff|].
    intros Hnow. apply Hiff. lia.
Qed.

(** ** The activity time over a run *)

Lemma ticks_last_activity (samples : list (Z * Z)) (b : OneButton) :
  _lastActivityTime (object (ticks samples b)) = _lastActivityTime b
  \/ In (_lastActivityTime (object (ticks samples b))) (map snd samples).
Proof.
  revert b. induction samples as [|[buttonLevel now] rest IH]; intros b.
  - left. reflexivity.
  - rewrite ticks_cons. cbn [object fst snd map].
    destruct (IH (object (tick buttonLevel now b))) as [Hsame | Hin].
    + rewrite Hsame, tick_last_activity.
      destruct (negb (value (tick buttonLevel now b) =? 0)).
      * right. left. reflexivity.
      * left. reflexivity.
    + right. right. exact Hin.
Qed.

(** X11.  What [getLastActivityTime] returns after a run of ticks is what
    it returned before the run or the time one of the ticks sampled.  So
    on a button fresh from the constructor it is [0] or a sampled time,
    and when no tick samples a time before the previous activity it
    never goes back. *)
Theorem X11_activity_time_is_a_sampled_time :
  forall (samples : list (Z * Z)) (b raw : OneButton) (pin activeLow : Z),
    let last := value (getLastActivityTime (object (ticks samples b))) in
    let fresh := construct raw pin activeLow in
    (last = value (getLastActivityTime b) \/ In last (map snd samples))
    /\ (value (getLastActivityTime (object (ticks samples fresh))) = 0
        \/ In (value (getLastActivityTime (object (ticks samples fresh))))
              (map snd samples))
    /\ (Forall (fun s => value (getLastActivityTime b) <= snd s) samples ->
        value (getLastActivityTime b) <= last).
Proof.
  intros samples b raw pin activeLow last fresh.
  unfold last.
  change (value (getLastActivityTime (object (ticks samples b))))
    with (_lastActivityTime (object (ticks samples b))).
  change (value (getLastActivityTime (object (ticks samples fresh))))
    with (_lastActivityTime (object (ticks samples fresh))).
  change (value (getLastActivityTime b)) with (_lastActivityTime b).
  split; [apply ticks_last_activity | split].
  - destruct (ticks_last_activity samples fresh) as [Hsame | Hin].
    + left. rewrite Hsame. unfold fresh. rewrite construct_eq. reflexivity.
    + right. exact Hin.
  - intros Hclock.
    destruct (ticks_last_activity samples b) as [Hsame | Hin].
    + rewrite Hsame. lia.
    + rewrite Forall_forall in Hclock. apply in_map_iff in Hin.
      destruct Hin as (smp & Heq & Hin). rewrite <- Heq.
      apply Hclock. exact Hin.
Qed.

(** ** Configuration calls one after another *)

(** X12.  Of two configuration calls on the same member the later one
    wins: registering a function again replaces the one registered
    before, and setting a threshold again replaces the value.  Two calls
    on different members can be made in either order. *)
Theorem X12_configuration_calls_compose :
  forall (c1 c2 : Config) (b : OneButton),
    (target c1 = target c2 ->
     object (configure c2 (object (configure c1 b)))
     = object (configure c2 b))
    /\ (target c1 <> target c2 ->
        object (configure c2 (object (configure c1 b)))
        = object (configure c1 (object (configure c2 b)))).
Proof.
  intros c1 c2 b. split; intros Ht;
    destruct c1, c2; cbn in Ht; try discriminate; try congruence;
    reflexivity.
Qed.

End Machine.

(** * The claims on a concrete button

    The event codes are numbered 1 to 6 here, in the order pressed, click,
    double click, long-press start, during long press, long-press stop. *)

Lemma codes_1_to_6_distinct : codes_distinct 1 2 3 4 5 6.
Proof.
  unfold codes_distinct, event_codes.
  repeat (apply NoDup_cons; [cbn; intros H; intuition discriminate|]).
  apply NoDup_nil.
Qed.

Lemma codes_1_to_6_nonzero : codes_nonzero 1 2 3 4 5 6.
Proof.
  unfold codes_nonzero, event_codes.
  repeat (apply Forall_cons; [discriminate|]). apply Forall_nil.
Qed.

Lemma sketch_in_wired (s : State) (t0 : Z) : wired (sketch_in s t0).
Proof. unfold wired. cbn. discriminate. Qed.

(** C1, counterexample.  On the sketch button a press at 0 and a release
    at 50 end in WaitSecondPress with [_startTime] still 0, not 50; and
    the tick at 260, only 210 ms after the release, declares the click. *)
Lemma C1_counterexample :
  _state (object (ticks 1 2 3 4 5 6 [(LOW, 0); (HIGH, 50)] sketch_button))
  = state_code WaitSecondPress
  /\ _startTime (object (ticks 1 2 3 4 5 6 [(LOW, 0); (HIGH, 50)]
                           sketch_button)) <> 50
  /\ 260 <= 50 + _clickTicks sketch_button
  /\ value (ticks 1 2 3 4 5 6 [(LOW, 0); (HIGH, 50); (HIGH, 260)]
                  sketch_button) = [1; 0; 2].
Proof.
  split; [reflexivity | split; [|split]].
  - vm_compute. discriminate.
  - vm_compute. discriminate.
  - reflexivity.
Qed.

(** C1 on the sketch button: press at 0, release at 50, tick at 260. *)
Lemma C1_witness :
  _startTime (object (ticks 1 2 3 4 5 6 [(LOW, 0); (HIGH, 50)] sketch_button))
  = 0
  /\ value (tick 1 2 3 4 5 6 HIGH 260
              (object (ticks 1 2 3 4 5 6 [(LOW, 0); (HIGH, 50)]
                         sketch_button))) = 2.
Proof.
  pose proof (C1_click_window_runs_from_press_start 1 2 3 4 5 6
                sketch_button LOW 0 HIGH 50 HIGH 260
                eq_refl eq_refl eq_refl) as H.
  cbv zeta in H. destruct H as (_ & Hstart & Hlate & _).
  split; [exact Hstart|].
  apply Hlate. reflexivity.
Defined.

(** C2, counterexample.  On the sketch button a press at 0, a release at
    50 and a press at 250, which is exactly [0 + 250]: the third tick
    returns no event, invokes nothing (the click function 1 is
    registered) and ends in WaitSecondRelease, not in Idle. *)
Lemma C2_counterexample :
  250 = ulong (0 + _clickTicks sketch_button)
  /\ ticks 1 2 3 4 5 6 [(LOW, 0); (HIGH, 50)] sketch_button
     = ([1; 0], sketch_in WaitSecondPress 0, [])
  /\ value (tick 1 2 3 4 5 6 LOW 250 (sketch_in WaitSecondPress 0)) <> 2
  /\ invoked (tick 1 2 3 4 5 6 LOW 250 (sketch_in WaitSecondPress 0)) = []
  /\ _state (object (tick 1 2 3 4 5 6 LOW 250 (sketch_in WaitSecondPress 0)))
     = state_code WaitSecondRelease.
Proof.
  split; [reflexivity | split; [|split; [|split]]].
  - vm_compute. reflexivity.
  - vm_compute. discriminate.
  - reflexivity.
  - reflexivity.
Qed.

(** C2 on the sketch button in WaitSecondPress since 0: a press at 250
    is taken as the second press, a press at 251 comes after the click. *)
Lemma C2_witness :
  value (tick 1 2 3 4 5 6 LOW 250 (sketch_in WaitSecondPress 0)) = 0
  /\ value (tick 1 2 3 4 5 6 LOW 251 (sketch_in WaitSecondPress 0)) = 2.
Proof.
  split.
  - apply (C2_tie_captures_second_press 1 2 3 4 5 6
             (sketch_in WaitSecondPress 0) LOW 250 eq_refl eq_refl).
    reflexivity.
  - apply (C2_tie_captures_second_press 1 2 3 4 5 6
             (sketch_in WaitSecondPress 0) LOW 251 eq_refl eq_refl).
    reflexivity.
Defined.

(** C3, the failing input.  A button constructed in storage whose
    [_clickFunc] bytes are those of function 7, nothing registered: the
    tick at 301 invokes function 7. *)
Lemma C3_failing_input :
  invoked (ticks 1 2 3 4 5 6 [(LOW, 0); (HIGH, 50); (HIGH, 301)]
                  (construct (stale 7%nat) 2 1)) = [7%nat].
Proof. vm_compute. reflexivity. Qed.

(** C4 on the sketch button. *)
Lemma C4_witness :
  value (ticks 1 2 3 4 5 6 [(LOW, 0); (HIGH, 50); (LOW, 100); (HIGH, 150)]
               sketch_button) = [1; 0; 0; 3]
  /\ invoked (ticks 1 2 3 4 5 6
                    [(LOW, 0); (HIGH, 50); (LOW, 100); (HIGH, 150)]
                    sketch_button) = [2%nat].
Proof.
  pose proof (C4_double_click_scenario 1 2 3 4 5 6 codes_1_to_6_distinct
                sketch_button eq_refl eq_refl eq_refl
                (sketch_in_wired Idle 0)) as H.
  cbv zeta in H. destruct H as (Hv & Hi & _). split; [exact Hv | exact Hi].
Defined.

(** C6 on the sketch button: the press sampled at 7 returns an event. *)
Lemma C6_witness :
  value (getLastActivityTime (object (tick 1 2 3 4 5 6 LOW 7 sketch_button)))
  = 7.
Proof.
  pose proof (C6_last_activity_time 1 2 3 4 5 6 codes_1_to_6_nonzero
                sketch_button [] [] LOW 7) as H.
  cbv zeta in H. destruct H as (_ & Hevent & _).
  apply Hevent. left. reflexivity.
Defined.

(** C7 on the sketch button, pressed since 0 and sampled at 601. *)
Lemma C7_witness :
  invoked (tick 1 2 3 4 5 6 LOW 601 (sketch_in PressDetected 0))
  = [3%nat; 4%nat; 6%nat].
Proof.
  pose proof (C7_long_press_start_handler_order 1 2 3 4 5 6
                (sketch_in PressDetected 0) LOW 601
                eq_refl (sketch_in_wired PressDetected 0) eq_refl eq_refl)
    as H.
  cbv zeta in H. destruct H as (_ & _ & _ & _ & Horder).
  apply Horder; reflexivity.
Defined.

(** C8 on the sketch button in WaitSecondPress since 0: with the click
    window set to 100 the tick at 101 times out. *)
Lemma C8_witness :
  _state (object (tick 1 2 3 4 5 6 HIGH 101
                    (object (setClickTicks 100 (sketch_in WaitSecondPress 0)))))
  = state_code Idle.
Proof.
  pose proof (C8_configuration_frame 1 2 3 4 5 6 (SetClickTicks 100)
                (sketch_in WaitSecondPress 0) 100 HIGH 101) as H.
  destruct H as (_ & Hclick & _).
  apply (Hclick eq_refl). reflexivity.
Defined.

(** C9 on a button pressed at 0: the tick at 601 switches the flag on. *)
Lemma C9_witness :
  _state (object (tick 1 2 3 4 5 6 LOW 601
                    (session 1 2 3 4 5 6 [Poll LOW 0] (construct zeroed 2 1))))
  = state_code LongPressActive.
Proof.
  pose proof (C9_long_press_flag_mirrors_state 1 2 3 4 5 6 zeroed 2 1
                [Poll LOW 0] LOW 601) as H.
  cbv zeta in H. destruct H as (_ & Hon & _).
  apply Hon; reflexivity.
Defined.

(** C10 on the sketch button: the second press held for three samples,
    then released at 1000000. *)
Lemma C10_witness :
  value (tick 1 2 3 4 5 6 HIGH 1000000
           (object (ticks 1 2 3 4 5 6
                      (map (fun t => (LOW, t)) [100; 5000; 100000])
                      (sketch_in WaitSecondRelease 0)))) = 3.
Proof.
  pose proof (C10_second_release_has_no_deadline 1 2 3 4 5 6
                codes_1_to_6_nonzero
                (sketch_in WaitSecondRelease 0) [100; 5000; 100000] 1000000
                eq_refl (sketch_in_wired WaitSecondRelease 0) eq_refl)
    as H.
  cbv zeta in H. destruct H as (_ & _ & _ & _ & _ & Hv & _).
  exact Hv.
Defined.

(** * The further properties on the sketch button *)

(** X3 on the sketch button, pressed since 0 and sampled at 601. *)
Lemma X3_witness :
  invoked (tick 1 2 3 4 5 6 LOW 601 (sketch_in PressDetected 0))
  = callbacks_for 1 2 3 4 5 6 (sketch_in PressDetected 0)
      (value (tick 1 2 3 4 5 6 LOW 601 (sketch_in PressDetected 0))).
Proof.
  exact (X3_callbacks_follow_the_event 1 2 3 4 5 6 codes_1_to_6_distinct
           (sketch_in PressDetected 0) LOW 601).
Defined.

(** X4 on the sketch button: a long press followed by a click. *)
Lemma X4_witness :
  exists s' : State,
    _state (object (ticks 1 2 3 4 5 6
                      [(LOW, 0); (LOW, 601); (LOW, 700); (HIGH, 750);
                       (LOW, 800); (HIGH, 850); (HIGH, 1051)]
                      sketch_button)) = state_code s'
    /\ phase_after 1 2 3 4 5 6 (phase Idle)
         (value (ticks 1 2 3 4 5 6
                   [(LOW, 0); (LOW, 601); (LOW, 700); (HIGH, 750);
                    (LOW, 800); (HIGH, 850); (HIGH, 1051)]
                   sketch_button)) = Some (phase s').
Proof.
  exact (X4_event_stream_is_well_formed 1 2 3 4 5 6 codes_1_to_6_distinct
           [(LOW, 0); (LOW, 601); (LOW, 700); (HIGH, 750);
            (LOW, 800); (HIGH, 850); (HIGH, 1051)]
           Idle sketch_button eq_refl).
Defined.

(** X6 on the sketch button: press at 0, held at 10 and 20, released at
    50, still released at 100 and 250, click declared at 251. *)
Lemma X6_witness :
  value (ticks 1 2 3 4 5 6
           [(LOW, 0); (LOW, 10); (LOW, 20); (HIGH, 50); (HIGH, 100);
            (HIGH, 250); (HIGH, 251)] sketch_button)
  = [1; 0; 0; 0; 0; 0; 2].
Proof.
  assert (Hholds : Forall (fun h => h <= ulong (0 + _pressTicks sketch_button))
                     [10; 20])
    by (repeat apply Forall_cons; try apply Forall_nil;
        vm_compute; discriminate).
  assert (Hwaits : Forall (fun w => w <= ulong (0 + _clickTicks sketch_button))
                     [100; 250])
    by (repeat apply Forall_cons; try apply Forall_nil;
        vm_compute; discriminate).
  exact (proj1 (X6_single_click 1 2 3 4 5 6 sketch_button 0 50 HIGH 251
                  [10; 20] [100; 250] eq_refl (sketch_in_wired Idle 0)
                  Hholds Hwaits eq_refl)).
Defined.

(** X7 on the sketch button: second press at 250, held until 5000. *)
Lemma X7_witness :
  value (ticks 1 2 3 4 5 6
           [(LOW, 0); (LOW, 10); (HIGH, 50); (HIGH, 100); (LOW, 250);
            (LOW, 4000); (HIGH, 5000)] sketch_button)
  = [1; 0; 0; 0; 0; 0; 3].
Proof.
  assert (Hholds : Forall (fun h => h <= ulong (0 + _pressTicks sketch_button))
                     [10])
    by (repeat apply Forall_cons; try apply Forall_nil;
        vm_compute; discriminate).
  assert (Hwaits : Forall (fun w => w <= ulong (0 + _clickTicks sketch_button))
                     [100])
    by (repeat apply Forall_cons; try apply Forall_nil;
        vm_compute; discriminate).
  assert (Hsecond : 250 <= ulong (0 + _clickTicks sketch_button))
    by (vm_compute; discriminate).
  exact (proj1 (X7_double_click 1 2 3 4 5 6 sketch_button 0 50 250 5000
                  [10] [100] [4000] eq_refl (sketch_in_wired Idle 0)
                  Hholds Hwaits Hsecond)).
Defined.

(** X8 on the sketch button: pressed at 0, still pressed at 600, 601, 700
    and 720, released at 750. *)
Lemma X8_witness :
  value (ticks 1 2 3 4 5 6
           [(LOW, 0); (LOW, 600); (LOW, 601); (LOW, 700); (LOW, 720);
            (HIGH, 750)] sketch_button)
  = [1; 0; 4; 5; 5; 6]
  /\ invoked (ticks 1 2 3 4 5 6
                [(LOW, 0); (LOW, 600); (LOW, 601); (LOW, 700); (LOW, 720);
                 (HIGH, 750)] sketch_button)
     = [3%nat; 4%nat; 6%nat; 6%nat; 6%nat; 5%nat].
Proof.
  assert (Hholds : Forall (fun h => h <= ulong (0 + _pressTicks sketch_button))
                     [600])
    by (repeat apply Forall_cons; try apply Forall_nil;
        vm_compute; discriminate).
  pose proof (X8_long_press 1 2 3 4 5 6 sketch_button 0 601 750
                [600] [700; 720] eq_refl (sketch_in_wired Idle 0)
                Hholds eq_refl) as H.
  cbv zeta in H. destruct H as (Hv & Hi & _).
  split; [exact Hv | exact Hi].
Defined.

(** X9 on the sketch button: a press 96 ms before the clock wraps; the
    tick 50 ms later, with the clock not yet wrapped, times out. *)
Lemma X9_witness :
  _state (object (tick 1 2 3 4 5 6 HIGH 4294967250
                    (sketch_in WaitSecondPress 4294967200)))
  = state_code Idle.
Proof.
  assert (Hstart : 0 <= 4294967200 < 2 ^ ULONG_BITS)
    by (split; vm_compute; [discriminate | reflexivity]).
  assert (Hticks : 0 <= 250 < 2 ^ ULONG_BITS)
    by (split; vm_compute; [discriminate | reflexivity]).
  pose proof (X9_click_deadline_wraps 1 2 3 4 5 6
                (sketch_in WaitSecondPress 4294967200) HIGH 4294967250
                eq_refl Hstart Hticks) as H.
  cbv zeta in H. destruct H as (_ & Hwrap).
  apply Hwrap; vm_compute; discriminate.
Defined.

(** X10 on the sketch button: pressed 296 ms before the clock wraps and
    sampled 10 ms later. *)
Lemma X10_witness :
  _state (object (tick 1 2 3 4 5 6 LOW 4294967010
                    (sketch_in PressDetected 4294967000)))
  = state_code LongPressActive.
Proof.
  assert (Hstart : 0 <= 4294967000 < 2 ^ ULONG_BITS)
    by (split; vm_compute; [discriminate | reflexivity]).
  assert (Hticks : 0 <= 600 < 2 ^ ULONG_BITS)
    by (split; vm_compute; [discriminate | reflexivity]).
  pose proof (X10_long_press_deadline_wraps 1 2 3 4 5 6
                (sketch_in PressDetected 4294967000) LOW 4294967010
                eq_refl (sketch_in_wired PressDetected 4294967000) eq_refl
                Hstart Hticks) as H.
  cbv zeta in H. destruct H as (_ & Hwrap).
  apply Hwrap; vm_compute; discriminate.
Defined.

(** X2 on an active-low button after one tick: [LOW] is pressed and not
    released. *)
Lemma X2_witness :
  value (isReleased LOW
           (session 1 2 3 4 5 6 [Poll LOW 0] (construct zeroed 2 1)))
  = negb (value (isPressed LOW
                   (session 1 2 3 4 5 6 [Poll LOW 0] (construct zeroed 2 1)))).
Proof.
  pose proof (X2_polarity 1 2 3 4 5 6 zeroed 2 1 [Poll LOW 0] LOW) as H.
  cbv zeta in H. destruct H as (_ & _ & _ & Hone).
  apply Hone. right. reflexivity.
Defined.

(** X5 on two storages that differ in [_startTime] only. *)
Lemma X5_witness :
  value (ticks 1 2 3 4 5 6 [(LOW, 0); (HIGH, 50); (HIGH, 301)]
           (construct (set_startTime 99 zeroed) 2 1))
  = value (ticks 1 2 3 4 5 6 [(LOW, 0); (HIGH, 50); (HIGH, 301)]
             (construct zeroed 2 1)).
Proof.
  pose proof (X5_raw_storage_shows_only_in_click_member 1 2 3 4 5 6
                (set_startTime 99 zeroed) zeroed 2 1 NULL
                [(LOW, 0); (HIGH, 50); (HIGH, 301)]) as H.
  destruct H as (Hsame & _). cbv zeta in Hsame.
  destruct (Hsame eq_refl) as (Hv & _). exact Hv.
Defined.

(** X11 on the sketch button: no sample is before time 0. *)
Lemma X11_witness :
  0 <= value (getLastActivityTime
                (object (ticks 1 2 3 4 5 6 [(LOW, 7); (HIGH, 50)]
                           sketch_button))).
Proof.
  pose proof (X11_activity_time_is_a_sampled_time 1 2 3 4 5 6
                [(LOW, 7); (HIGH, 50)] sketch_button zeroed 2 1) as H.
  cbv zeta in H. destruct H as (_ & _ & Hclock).
  apply Hclock.
  repeat apply Forall_cons; try apply Forall_nil; vm_compute; discriminate.
Defined.

(** X12: registering the click function a second time. *)
Lemma X12_witness :
  object (configure (AttachClick (Some 2%nat))
            (object (configure (AttachClick (Some 1%nat)) zeroed)))
  = object (configure (AttachClick (Some 2%nat)) zeroed).
Proof.
  apply (X12_configuration_calls_compose
           (AttachClick (Some 1%nat)) (AttachClick (Some 2%nat)) zeroed).
  reflexivity.
Defined.
